(** * Molaison Executive Assistant: intent classification and dispatch

    A shallow embedding of the chat pipeline of
    [src/molaison-executive-assistant.js]: [analyzeIntent], the capability
    handlers, [handlePromptRequest], [handleGeneralRequest],
    [logConversation] and [handleChatMessage], followed by the properties
    the specification states about them; then of the routes around it:
    [updateEnvFile] and the configuration routes, [getConfigStatus],
    [processVoiceInput], [generateContentCalendar], [generatePrompts] and
    [getEmails], with the properties the code shows for them. *)

From Stdlib Require Import String Ascii List ZArith QArith Qround Lia Bool Arith.
Import ListNotations.
Set Warnings "-register-all".
Close Scope Q_scope.
Open Scope string_scope.

(** ** JavaScript strings

    A string is a sequence of code units; the model keeps the code units
    below 256 (Latin-1), which covers every literal of the program. *)

Module JSString.

(** [String.prototype.toLowerCase] on one code unit below 256: the letters
    A-Z and the Latin-1 capitals U+00C0-U+00DE (the sign U+00D7 apart)
    move up by 32, everything else is kept. *)
Definition lower_char (c : ascii) : ascii :=
  let n := nat_of_ascii c in
  if (((65 <=? n) && (n <=? 90))
      || ((192 <=? n) && (n <=? 222) && negb (n =? 215)))%nat
  then ascii_of_nat (n + 32)
  else c.

Fixpoint toLowerCase (s : string) : string :=
  match s with
  | EmptyString => EmptyString
  | String c s' => String (lower_char c) (toLowerCase s')
  end.

(** [s.includes(sub)]: [sub] occurs in [s] at some position. *)
Fixpoint includes (s sub : string) : bool :=
  String.prefix sub s
  || match s with
     | EmptyString => false
     | String _ s' => includes s' sub
     end.

(** The double quote character, for the templates that contain one. *)
Definition dquote : string := String (ascii_of_nat 34) EmptyString.

End JSString.
Import JSString.

(** ** JavaScript values

    The values that cross the program's boundaries are JSON values:
    the request body, the replies of the text-generation service, the
    intents and the handler responses. *)

Inductive JSValue : Type :=
| JUndefined
| JNull
| JBool (b : bool)
| JNum (q : Q)
| JStr (s : string)
| JArr (items : list JSValue)
| JObj (fields : list (string * JSValue)).

Inductive Error : Type :=
| TypeError
| SyntaxError
| AxiosError.

Module JS.

(** ToBoolean. *)
Definition truthy (v : JSValue) : bool :=
  match v with
  | JUndefined | JNull => false
  | JBool b => b
  | JNum q => negb (Qeq_bool q 0)
  | JStr s => negb (s =? "")
  | JArr _ | JObj _ => true
  end.

(** [a || b]. *)
Definition or_else (a b : JSValue) : JSValue := if truthy a then a else b.

(** [typeof v === 'object'] (true of [null] as well). *)
Definition typeof_object (v : JSValue) : bool :=
  match v with
  | JNull | JArr _ | JObj _ => true
  | _ => false
  end.

Fixpoint lookup (k : string) (fields : list (string * JSValue)) : JSValue :=
  match fields with
  | [] => JUndefined
  | (k', v) :: rest => if k =? k' then v else lookup k rest
  end.

(** [v.k] for the property names the program reads (category, business,
    response, prompts, calendar, caption, choices, message, content):
    none of them is defined on a prototype, so only own properties of
    objects answer; reading a property of [undefined] or [null] raises a
    TypeError. *)
Definition get (v : JSValue) (k : string) : Error + JSValue :=
  match v with
  | JUndefined | JNull => inl TypeError
  | JObj fields => inr (lookup k fields)
  | _ => inr JUndefined
  end.

(** [v[0]]. *)
Definition get0 (v : JSValue) : Error + JSValue :=
  match v with
  | JUndefined | JNull => inl TypeError
  | JArr items => inr (nth 0 items JUndefined)
  | JObj fields => inr (lookup "0" fields)
  | JStr (String c _) => inr (JStr (String c EmptyString))
  | _ => inr JUndefined
  end.

End JS.

(** ** The fallback (keyword) classifier *)

Definition mkIntent (category : string) (confidence : Q)
    (action business priority : string) : JSValue :=
  JObj [("category", JStr category); ("confidence", JNum confidence);
        ("action", JStr action); ("business", JStr business);
        ("priority", JStr priority)].

(** Lines 403-412 of [analyzeIntent]: the branch taken when no credential
    is configured. *)
Definition keywordIntent (message : string) : JSValue :=
  let lowerMessage := toLowerCase message in
  if includes lowerMessage "email"
  then mkIntent "email" (7 # 10) "email_management" "both" "medium"
  else if includes lowerMessage "calendar" || includes lowerMessage "schedule"
  then mkIntent "calendar" (7 # 10) "calendar_management" "both" "medium"
  else if includes lowerMessage "call" || includes lowerMessage "phone"
  then mkIntent "phone" (7 # 10) "phone_assistance" "both" "medium"
  else if includes lowerMessage "research" || includes lowerMessage "analyze"
  then mkIntent "research" (7 # 10) "research_task" "both" "medium"
  else if includes lowerMessage "social" || includes lowerMessage "content"
  then mkIntent "social" (7 # 10) "social_media" "both" "medium"
  else if includes lowerMessage "client" || includes lowerMessage "project"
  then mkIntent "client_management" (7 # 10) "client_assistance" "both" "medium"
  else if includes lowerMessage "prompt" || includes lowerMessage "generate"
  then mkIntent "prompts" (7 # 10) "prompt_generation" "both" "medium"
  else if includes lowerMessage "productive" || includes lowerMessage "goal"
  then mkIntent "productivity" (7 # 10) "productivity_coaching" "both" "medium"
  else mkIntent "general" (6 # 10) "general_assistance" "both" "medium".

(** The Intent returned when classification raised (lines 430-436). *)
Definition syntheticIntent : JSValue :=
  mkIntent "general" (5 # 10) "general_assistance" "both" "medium".

(** ** State, environment and the effect monad *)

(** One request sent with [axios.post] to the chat-completions endpoint;
    the prompt text is left out, no property reads it. *)
Record Request : Type := mkRequest {
  req_url : string;
  req_model : string;
  req_max_tokens : Z;
  req_temperature : Q
}.

(** A record of [this.db.conversations]. *)
Record ConversationRecord : Type := mkRecord {
  rec_id : string;
  rec_message : string;
  rec_response : JSValue;
  rec_intent : JSValue;
  rec_timestamp : Z;
  rec_business : JSValue
}.

(** The mutable state a dispatch touches: the conversation log, the
    requests that left the process, and the labels [console.error] printed
    (one per [catch] clause that ran). *)
Record Store : Type := mkStore {
  conversations : list ConversationRecord;
  requests : list Request;
  console : list string
}.

(** What the text-generation service answers to one request. [data] is the
    decoded body ([response.data]); [content_json] is what [JSON.parse]
    makes of [data.choices[0].message.content], [None] when it raises a
    SyntaxError. *)
Record Reply : Type := mkReply {
  status : Z;
  data : JSValue;
  content_json : option JSValue
}.

Inductive HttpResult : Type :=
| NetworkError
| Responded (r : Reply).

(** What a dispatch reads and does not write: the configured credential
    ([this.config.apis.openai.key], a string or [undefined]), the answers
    of the service to the classification and to the completion request,
    and the values [uuidv4()] and [new Date()] produce. *)
Record Env : Type := mkEnv {
  openai_key : option string;
  classification : HttpResult;
  completion : HttpResult;
  uuid : string;
  log_time : Z;
  reply_time : Z
}.

(** Computations: they read and write the store and end with a value or a
    raised error; what was written before a raise stays written. *)
Definition M (A : Type) : Type := Store -> (Error + A) * Store.

Definition ret {A} (a : A) : M A := fun st => (inr a, st).

Definition throw {A} (e : Error) : M A := fun st => (inl e, st).

Definition bind {A B} (c : M A) (k : A -> M B) : M B :=
  fun st =>
    match c st with
    | (inr a, st') => k a st'
    | (inl e, st') => (inl e, st')
    end.

(** [try { c } catch (error) { h error }]. *)
Definition try_catch {A} (c : M A) (h : Error -> M A) : M A :=
  fun st =>
    match c st with
    | (inr a, st') => (inr a, st')
    | (inl e, st') => h e st'
    end.

Definition lift {A} (r : Error + A) : M A :=
  match r with
  | inl e => throw e
  | inr a => ret a
  end.

Declare Scope js_scope.
Delimit Scope js_scope with js.
Notation "x <- c ;; k" := (bind c (fun x => k))
  (at level 61, c at next level, right associativity) : js_scope.
Notation "c ;; k" := (bind c (fun _ => k))
  (at level 61, right associativity) : js_scope.
Open Scope js_scope.

(** [!key || key === 'test_key_placeholder']. *)
Definition unconfigured (key : option string) : bool :=
  match key with
  | None => true
  | Some k => (k =? "") || (k =? "test_key_placeholder")
  end.

(** The default [validateStatus] of axios: [status >= 200 && status < 300]. *)
Definition validateStatus (status : Z) : bool :=
  (200 <=? status)%Z && (status <? 300)%Z.

(** [axios.post]: the request leaves, and the promise rejects on a
    transport error and on a status that [validateStatus] refuses. *)
Definition axios_post (answer : HttpResult) (rq : Request) : M Reply :=
  fun st =>
    let st' := mkStore (conversations st) (requests st ++ [rq]) (console st) in
    match answer with
    | NetworkError => (inl AxiosError, st')
    | Responded r =>
        if validateStatus (status r) then (inr r, st') else (inl AxiosError, st')
    end.

(** [response.data.choices[0].message.content]. *)
Definition content (r : Reply) : Error + JSValue :=
  match JS.get (data r) "choices" with
  | inl e => inl e
  | inr choices =>
      match JS.get0 choices with
      | inl e => inl e
      | inr choice =>
          match JS.get choice "message" with
          | inl e => inl e
          | inr message => JS.get message "content"
          end
      end
  end.

(** [JSON.parse(response.data.choices[0].message.content)]. *)
Definition JSON_parse_content (r : Reply) : M JSValue :=
  _ <- lift (content r) ;;
  match content_json r with
  | Some v => ret v
  | None => throw SyntaxError
  end.

(** [console.error(label, error)]. *)
Definition console_error (label : string) : M unit :=
  fun st =>
    (inr tt, mkStore (conversations st) (requests st) (console st ++ [label])).

Definition chat_completions : string := "https://api.openai.com/v1/chat/completions".

(** ** analyzeIntent (lines 365-438) *)

Definition classification_request : Request :=
  mkRequest chat_completions "gpt-4" 300 (3 # 10).

Definition analyzeIntent (env : Env) (message : string) (context : JSValue)
  : M JSValue :=
  try_catch
    (if unconfigured (openai_key env)
     then ret (keywordIntent message)
     else
       response <- axios_post (classification env) classification_request ;;
       JSON_parse_content response)
    (fun _ => console_error "Intent analysis error:" ;; ret syntheticIntent).
(** ** The capability handlers (lines 1247-1318)

    Each class answers [handleRequest] with a fixed text. *)

Module EmailManager.
Definition handleRequest (intent : JSValue) (message : string) : M JSValue :=
  ret (JStr "I'll help you manage your emails for both Molaison Agency and Molaison AI. What specific email task would you like me to handle?").
End EmailManager.

Module CalendarAssistant.
Definition handleRequest (intent : JSValue) (message : string) : M JSValue :=
  ret (JStr "I can help you schedule appointments, make reservations, and manage your calendar across both businesses. What would you like me to schedule?").
End CalendarAssistant.

Module PhoneAssistant.
Definition handleRequest (intent : JSValue) (message : string) : M JSValue :=
  ret (JStr "I can make calls on your behalf for client outreach, follow-ups, or business development. Who would you like me to call?").
End PhoneAssistant.

Module ResearchAssistant.
Definition handleRequest (intent : JSValue) (message : string) : M JSValue :=
  ret (JStr "I'll conduct comprehensive research using Perplexity AI. What topic or competitor would you like me to research?").
End ResearchAssistant.

Module LifeCoach.
Definition handleRequest (intent : JSValue) (message : string) : M JSValue :=
  ret (JStr "As your productivity coach, I can help you optimize your time, set goals, and balance running both Molaison Agency and Molaison AI. What area would you like to focus on?").
End LifeCoach.

Module SocialMediaManager.
Definition handleRequest (intent : JSValue) (message : string) : M JSValue :=
  ret (JStr "I'll manage social media for both your brands. Would you like me to create content, schedule posts, or analyze engagement?").
End SocialMediaManager.

Module ClientProjectManager.
Definition handleRequest (intent : JSValue) (message : string) : M JSValue :=
  ret (JStr "I'll help manage your client projects and custom builds. What project updates or new client work do you need help with?").
End ClientProjectManager.

Module BusinessIntelligence.
Definition handleRequest (intent : JSValue) (message : string) (businessContext : option string) : M JSValue :=
  ret (JStr "I'll analyze business performance for both Molaison Agency and Molaison AI. What metrics or insights do you need?").
End BusinessIntelligence.

(** [businessContext || d] for a business context that is a string or
    absent. *)
Definition or_default (businessContext : option string) (d : string) : string :=
  match businessContext with
  | Some s => if s =? "" then d else s
  | None => d
  end.

(** ** handlePromptRequest (lines 290-363) *)

Definition billyGeneTemplates (businessContext : option string) : list JSValue :=
  [ JStr ("Create a cinematic, high-budget commercial style image of " ++
           or_default businessContext "your business" ++
           ". Shot with professional lighting, shallow depth of field, and dramatic color grading. Include luxury brand aesthetics, premium materials, and sophisticated composition that conveys exclusivity and high value for business owners.");
    JStr ("Professional lifestyle photography showing business owners using " ++
           or_default businessContext "your business" ++
           " services in an aspirational setting. Clean, modern aesthetic with natural lighting. Show the transformation and elevated lifestyle this service enables. Include authentic human emotion and premium environment details.");
    JStr ("Split-screen comparison image showing 'before and after' or 'problem vs solution' for business owners. Left side shows business frustration/difficulty, right side shows ease/success with " ++
           or_default businessContext "your business" ++
           ". Professional photography with clear visual storytelling and emotional impact.");
    JStr ("Professional headshot/environment showing expertise and credibility around " ++
           or_default businessContext "your business" ++
           ". Include certifications, awards, professional setting, and visual elements that establish authority for business owners. Warm, trustworthy lighting with confidence-inspiring composition.");
    JStr ("Dynamic collage showing multiple happy business owners using " ++
           or_default businessContext "your business" ++
           ". Include diverse demographics, genuine expressions, and results/outcomes. Professional montage style with consistent branding and positive energy throughout.") ].

Definition contentThemes (businessContext : option string) : list JSValue :=
  [
    JObj [ ("day", JStr "Monday");
           ("theme", JStr "Motivation Monday");
           ("content", JStr ("Inspirational content and success stories for business owners using " ++
                                or_default businessContext "your business"));
           ("postIdea", JStr ("Success story: How business owners transformed their results with " ++
                                 or_default businessContext "your business"));
           ("optimalTime", JStr "8:00 AM") ];
    JObj [ ("day", JStr "Tuesday");
           ("theme", JStr "Tips Tuesday");
           ("content", JStr "Educational content and industry insights for business owners");
           ("postIdea", JStr ("5 tips business owners need to know about " ++
                                 or_default businessContext "your services"));
           ("optimalTime", JStr "9:00 AM") ];
    JObj [ ("day", JStr "Wednesday");
           ("theme", JStr "Wisdom Wednesday");
           ("content", JStr "Expert advice and problem-solving for business owners");
           ("postIdea", JStr ("Industry secrets business owners should know about " ++
                                 or_default businessContext "your services"));
           ("optimalTime", JStr "11:00 AM") ];
    JObj [ ("day", JStr "Thursday");
           ("theme", JStr "Throwback Thursday");
           ("content", JStr "Case studies and testimonials from business owners");
           ("postIdea", JStr ("Case study: Business owner success story with " ++
                                 or_default businessContext "your business"));
           ("optimalTime", JStr "2:00 PM") ];
    JObj [ ("day", JStr "Friday");
           ("theme", JStr "Feature Friday");
           ("content", JStr "Service highlights and demos for business owners");
           ("postIdea", JStr ("Feature spotlight: How " ++
                                 or_default businessContext "your business" ++
                                 " helps business owners"));
           ("optimalTime", JStr "3:00 PM") ] ].

Definition clarifying_question : string :=
  "I can help you with AI prompt generation, content calendars, and viral captions. What specific type of content would you like me to create?".

(** The body of the [try] block. With [message] a string nothing in it
    raises; the [catch] clause answers the same text as the last branch. *)
Definition handlePromptRequest (message : string) (context : JSValue)
    (businessContext : option string) : M JSValue :=
  try_catch
    (if includes (toLowerCase message) "image prompt"
        || includes (toLowerCase message) "high-end image"
        || includes (toLowerCase message) "generate"
     then
       let prompts := billyGeneTemplates businessContext in
       ret (JObj [ ("response", JStr ("Here are 5 professional high-end image prompts for " ++
                                     or_default businessContext "your business" ++
                                     ":"));
                   ("prompts", JArr prompts);
                   ("promptType", JStr "high-end-image") ])
     else if includes (toLowerCase message) "content calendar"
             || includes (toLowerCase message) "weekly calendar"
     then
       ret (JObj [ ("response", JStr ("Here's your weekly content calendar for " ++
                                     or_default businessContext "your business" ++
                                     ":"));
                   ("calendar", JArr (contentThemes businessContext)) ])
     else ret (JStr clarifying_question))
    (fun _ => console_error "Prompt request error:" ;;
              ret (JStr clarifying_question)).

(** ** handleGeneralRequest (lines 440-478) *)

Definition unconfigured_text (message : string) : string :=
  ("I understand you need assistance with: " ++
  dquote ++
  message ++
  dquote ++
  ". As your executive assistant for Molaison Agency and Molaison AI, I'm ready to help with business management, client projects, and various tasks. However, advanced AI features require API configuration. Please let me know what specific assistance you need!").

Definition general_apology : string :=
  "I understand you need assistance. Let me help you with that. Could you provide more specific details about what you'd like me to handle?".

Definition completion_request : Request :=
  mkRequest chat_completions "gpt-4" 500 (7 # 10).

Definition handleGeneralRequest (env : Env) (message : string)
    (context : JSValue) : M JSValue :=
  if unconfigured (openai_key env)
  then ret (JStr (unconfigured_text message))
  else
    try_catch
      (response <- axios_post (completion env) completion_request ;;
       lift (content response))
      (fun _ => console_error "General request error:" ;;
                ret (JStr general_apology)).

(** ** logConversation (lines 559-573) *)

(** [a.slice(-n)]: the last [n] elements, all of them when there are fewer. *)
Definition slice_last {A} (n : nat) (a : list A) : list A :=
  skipn (length a - n) a.

Definition capacity : nat := 1000.

(** The assignment of lines 560-572 on the array itself. *)
Definition push_and_trim (log : list ConversationRecord)
    (r : ConversationRecord) : list ConversationRecord :=
  let pushed := (log ++ [r])%list in
  if (capacity <? length pushed)%nat then slice_last capacity pushed else pushed.

Definition logConversation (env : Env) (message : string)
    (response intent : JSValue) : M unit :=
  business <- lift (JS.get intent "business") ;;
  fun st =>
    let r := mkRecord (uuid env) message response intent (log_time env)
               (JS.or_else business (JStr "general")) in
    (inr tt, mkStore (push_and_trim (conversations st) r) (requests st)
               (console st)).

(** ** handleChatMessage (lines 221-288) *)

(** [req.body], with the fields the handler destructures, for the
    requests the specification describes: the message is text, the
    context any value, the business context text or absent. *)
Record ChatRequest : Type := mkChat {
  message : string;
  context : JSValue;
  businessContext : option string
}.

(** What the handler sends: [res.json({ success: true, ... })] or
    [res.status(500).json({ success: false, ... })]. *)
Inductive ChatResponse : Type :=
| ChatOk (response prompts calendar caption intent : JSValue) (timestamp : Z)
| ChatError (error fallback : string).

Definition success (r : ChatResponse) : bool :=
  match r with
  | ChatOk _ _ _ _ _ _ => true
  | ChatError _ _ => false
  end.

(** The [switch] on [intent.category] (lines 232-265); the cases compare
    with [===], so only a string selects a case other than [default]. *)
Definition invoke (env : Env) (category intent : JSValue) (rq : ChatRequest)
  : M JSValue :=
  match category with
  | JStr c =>
      if c =? "email" then EmailManager.handleRequest intent (message rq)
      else if c =? "calendar" then CalendarAssistant.handleRequest intent (message rq)
      else if c =? "phone" then PhoneAssistant.handleRequest intent (message rq)
      else if c =? "research" then ResearchAssistant.handleRequest intent (message rq)
      else if c =? "social" then SocialMediaManager.handleRequest intent (message rq)
      else if c =? "client_management"
      then ClientProjectManager.handleRequest intent (message rq)
      else if c =? "business_intelligence"
      then BusinessIntelligence.handleRequest intent (message rq) (businessContext rq)
      else if c =? "productivity" then LifeCoach.handleRequest intent (message rq)
      else if (c =? "prompts") || (c =? "content")
      then handlePromptRequest (message rq) (context rq) (businessContext rq)
      else handleGeneralRequest env (message rq) (context rq)
  | _ => handleGeneralRequest env (message rq) (context rq)
  end.

(** [typeof response === 'object' ? response.response : response]. *)
Definition response_text (response : JSValue) : Error + JSValue :=
  if JS.typeof_object response then JS.get response "response" else inr response.

(** [response && response.k ? response.k : undefined]. *)
Definition optional_field (response : JSValue) (k : string) : Error + JSValue :=
  if JS.truthy response
  then match JS.get response k with
       | inl e => inl e
       | inr v => if JS.truthy v then JS.get response k else inr JUndefined
       end
  else inr JUndefined.

Definition failure_envelope : ChatResponse :=
  ChatError "Failed to process message"
    "I'm having trouble processing that request. Could you please rephrase or try again?".

(** The [try] block of the handler, up to the argument of [res.json]. *)
Definition chat_steps (env : Env) (rq : ChatRequest) : M ChatResponse :=
  intent <- analyzeIntent env (message rq) (context rq) ;;
  category <- lift (JS.get intent "category") ;;
  response <- invoke env category intent rq ;;
  logConversation env (message rq) response intent ;;
  text <- lift (response_text response) ;;
  prompts <- lift (optional_field response "prompts") ;;
  calendar <- lift (optional_field response "calendar") ;;
  caption <- lift (optional_field response "caption") ;;
  category' <- lift (JS.get intent "category") ;;
  ret (ChatOk text prompts calendar caption category' (reply_time env)).

Definition handleChatMessage (env : Env) (rq : ChatRequest)
  : Store -> ChatResponse * Store :=
  fun st =>
    match chat_steps env rq st with
    | (inr sent, st') => (sent, st')
    | (inl _, st') =>
        (failure_envelope, snd (console_error "Chat processing error:" st'))
    end.

Definition empty_store : Store := mkStore [] [] [].

Definition offline (key : option string) : Env :=
  mkEnv key NetworkError NetworkError "00000000-0000-4000-8000-000000000000" 0 0.

(** ** The reference classifier of the specification

    Written from the specification's words (section 4.1), to be compared
    with [keywordIntent]: a case-insensitive substring search for an ordered
    list of keyword sets, the first matching set winning. *)

Module Reference.

(** Two characters that differ at most by their case. *)
Definition same_letter (a b : ascii) : bool :=
  Ascii.eqb (lower_char a) (lower_char b).

(** [kw] is found at the start of [s], case ignored. *)
Fixpoint starts_with (kw s : string) : bool :=
  match kw, s with
  | EmptyString, _ => true
  | String _ _, EmptyString => false
  | String a kw', String b s' => same_letter a b && starts_with kw' s'
  end.

(** [kw] is found somewhere in [s], case ignored. *)
Fixpoint occurs (kw s : string) : bool :=
  starts_with kw s
  || match s with
     | EmptyString => false
     | String _ s' => occurs kw s'
     end.

(** The keyword sets in their order of precedence, each with its
    category. *)
Definition keyword_sets : list (list string * string) :=
  [ (["email"], "email");
    (["calendar"; "schedule"], "calendar");
    (["call"; "phone"], "phone");
    (["research"; "analyze"], "research");
    (["social"; "content"], "social");
    (["client"; "project"], "client_management");
    (["prompt"; "generate"], "prompts");
    (["productive"; "goal"], "productivity") ].

Definition matches (message : string) (set : list string * string) : bool :=
  existsb (fun kw => occurs kw message) (fst set).

(** What the specification fixes of the result: business and priority
    are fixed for a match only. *)
Record Verdict : Type := mkVerdict {
  category : string;
  confidence : Q;
  business : option string;
  priority : option string
}.

Definition classify (message : string) : Verdict :=
  match find (matches message) keyword_sets with
  | Some (_, c) => mkVerdict c (7 # 10) (Some "both") (Some "medium")
  | None => mkVerdict "general" (6 # 10) None None
  end.

Definition fixes (field : option string) (v : Error + JSValue) : Prop :=
  match field with
  | Some s => v = inr (JStr s)
  | None => True
  end.

(** An Intent of the program carries what the verdict fixes. *)
Definition agrees (intent : JSValue) (v : Verdict) : Prop :=
  JS.get intent "category" = inr (JStr (category v))
  /\ JS.get intent "confidence" = inr (JNum (confidence v))
  /\ fixes (business v) (JS.get intent "business")
  /\ fixes (priority v) (JS.get intent "priority").

End Reference.

(** ** The failures of the classification call

    The Intent structure of the specification (section 3), and the three
    ways the specification lets the remote classification fail. *)

Definition is_one_of (names : list string) (v : JSValue) : bool :=
  match v with
  | JStr s => existsb (String.eqb s) names
  | _ => false
  end.

Definition is_Intent (v : JSValue) : bool :=
  match v with
  | JObj fields =>
      is_one_of ["email"; "calendar"; "phone"; "research"; "social";
                 "client_management"; "business_intelligence"; "productivity";
                 "prompts"; "content"; "general"] (JS.lookup "category" fields)
      && match JS.lookup "confidence" fields with
         | JNum q => Qle_bool 0 q && Qle_bool q 1
         | _ => false
         end
      && match JS.lookup "action" fields with
         | JStr _ => true
         | _ => false
         end
      && is_one_of ["agency"; "ai"; "both"; "client"] (JS.lookup "business" fields)
      && is_one_of ["low"; "medium"; "high"; "urgent"] (JS.lookup "priority" fields)
  | _ => false
  end.

(** The reply holds a payload that parses as an Intent. *)
Definition parses_as_Intent (r : Reply) : bool :=
  match content r, content_json r with
  | inr _, Some v => is_Intent v
  | _, _ => false
  end.

(** A transport error, a status outside 2xx, or a payload that does not
    parse as an Intent. *)
Definition call_fails (answer : HttpResult) : bool :=
  match answer with
  | NetworkError => true
  | Responded r => negb (validateStatus (status r)) || negb (parses_as_Intent r)
  end.

(** A transport error, a status outside 2xx, a body without
    [choices[0].message.content], or a content that is not JSON text:
    the cases in which a statement of the [try] block raises. *)
Definition call_raises (answer : HttpResult) : bool :=
  match answer with
  | NetworkError => true
  | Responded r =>
      negb (validateStatus (status r))
      || match content r with inl _ => true | inr _ => false end
      || match content_json r with None => true | Some _ => false end
  end.

(** A body [{ choices: [ { message: { content: c } } ] }]. *)
Definition completion_body (c : JSValue) : JSValue :=
  JObj [("choices", JArr [JObj [("message", JObj [("content", c)])]])].

(** The store after one request and one [console.error]. *)
Definition after_failed_call (rq : Request) (label : string) (st : Store) : Store :=
  mkStore (conversations st) (requests st ++ [rq]) (console st ++ [label]).

(** ** The weekly calendar of the specification

    What the specification asks of the content-generation result: a
    calendar of five entries, Monday to Friday, each with a non-empty
    post idea that mentions the business context. *)

Definition week : list string :=
  ["Monday"; "Tuesday"; "Wednesday"; "Thursday"; "Friday"].

Definition entry_for (businessContext day : string) (entry : JSValue) : Prop :=
  JS.get entry "day" = inr (JStr day)
  /\ exists idea,
       JS.get entry "postIdea" = inr (JStr idea)
       /\ idea <> ""
       /\ includes idea businessContext = true.

Definition has_week_calendar (businessContext : string) (result : JSValue)
  : Prop :=
  exists entries,
    JS.get result "calendar" = inr (JArr entries)
    /\ length entries = 5
    /\ Forall2 (entry_for businessContext) week entries.

(** The messages the first branch of [handlePromptRequest] takes. *)
Definition asks_for_image_prompts (message : string) : bool :=
  includes (toLowerCase message) "image prompt"
  || includes (toLowerCase message) "high-end image"
  || includes (toLowerCase message) "generate".

Definition asks_for_calendar (message : string) : bool :=
  includes (toLowerCase message) "content calendar"
  || includes (toLowerCase message) "weekly calendar".

(** A log filled to capacity with one record. *)
Definition old_record : ConversationRecord :=
  mkRecord "old" "earlier" (JStr "done") syntheticIntent 0 (JStr "both").

Definition full_store : Store := mkStore (repeat old_record capacity) [] [].

(** ** The failures of a capability *)

(** A transport error, a status outside 2xx, or a body on which reading
    [choices[0].message.content] raises a TypeError ([choices], its first
    element or [message] missing): the cases in which a statement of the
    [try] block of [handleGeneralRequest] raises. *)
Definition completion_fails (answer : HttpResult) : bool :=
  match answer with
  | NetworkError => true
  | Responded r =>
      negb (validateStatus (status r))
      || match content r with inl _ => true | inr _ => false end
  end.

(** The categories the [switch] of [handleChatMessage] hands to
    [handleGeneralRequest]: ['general'] and every value that is none of
    the ten other case labels. *)
Definition general_category (category : JSValue) : bool :=
  match category with
  | JStr c =>
      negb (existsb (String.eqb c)
              ["email"; "calendar"; "phone"; "research"; "social";
               "client_management"; "business_intelligence"; "productivity";
               "prompts"; "content"])
  | _ => true
  end.

(** ** The course of a dispatch *)

(** A step keeps the conversation log and prints the labels [new]. *)
Definition prints (st st' : Store) (new : list string) : Prop :=
  conversations st' = conversations st
  /\ console st' = (console st ++ new)%list.

(** The store after the append of [logConversation]. *)
Definition logged (env : Env) (rq : ChatRequest) (response intent business : JSValue)
    (st : Store) : Store :=
  mkStore
    (push_and_trim (conversations st)
       (mkRecord (uuid env) (message rq) response intent (log_time env)
          (JS.or_else business (JStr "general"))))
    (requests st) (console st).

(** The store after the [catch] clause of the dispatcher. *)
Definition failed (st : Store) : Store :=
  mkStore (conversations st) (requests st)
    (console st ++ ["Chat processing error:"]).

(** The ways a dispatch can go. Classification and the capability always
    return; the dispatch fails when the Intent is [null] or [undefined]
    (nothing is appended), and when the response is [null] (the record is
    appended first). *)
Inductive Dispatch (env : Env) (rq : ChatRequest) (st : Store)
  : ChatResponse -> Store -> Prop :=
| NoIntent intent st1 new1 :
    analyzeIntent env (message rq) (context rq) st = (inr intent, st1) ->
    prints st st1 new1 ->
    (new1 = [] \/ new1 = ["Intent analysis error:"]) ->
    JS.get intent "category" = inl TypeError ->
    Dispatch env rq st failure_envelope (failed st1)
| NullResponse intent st1 new1 category st2 new2 business :
    analyzeIntent env (message rq) (context rq) st = (inr intent, st1) ->
    prints st st1 new1 ->
    (new1 = [] \/ new1 = ["Intent analysis error:"]) ->
    JS.get intent "category" = inr category ->
    JS.get intent "business" = inr business ->
    invoke env category intent rq st1 = (inr JNull, st2) ->
    prints st1 st2 new2 ->
    new2 = [] ->
    Dispatch env rq st failure_envelope
      (failed (logged env rq JNull intent business st2))
| Answered intent st1 new1 category response st2 new2 business
    text prompts calendar caption :
    analyzeIntent env (message rq) (context rq) st = (inr intent, st1) ->
    prints st st1 new1 ->
    (new1 = [] \/ new1 = ["Intent analysis error:"]) ->
    JS.get intent "category" = inr category ->
    JS.get intent "business" = inr business ->
    invoke env category intent rq st1 = (inr response, st2) ->
    prints st1 st2 new2 ->
    (new2 = []
     \/ new2 = ["General request error:"] /\ response = JStr general_apology) ->
    response_text response = inr text ->
    optional_field response "prompts" = inr prompts ->
    optional_field response "calendar" = inr calendar ->
    optional_field response "caption" = inr caption ->
    Dispatch env rq st
      (ChatOk text prompts calendar caption category (reply_time env))
      (logged env rq response intent business st2).

(** ** Concrete environments *)

Definition live_key : option string := Some "sk-live-0123456789".

(** The service answers 200 with the content [{}]: JSON text, and no
    Intent. *)
Definition empty_object_answer : HttpResult :=
  Responded (mkReply 200 (completion_body (JStr "{}")) (Some (JObj []))).

Definition unvalidated_env : Env :=
  mkEnv live_key empty_object_answer NetworkError "id" 0 0.

Definition quoted (s : string) : string := dquote ++ s ++ dquote.

(** The JSON text of the Intent (general, 0.9, general_assistance, both,
    medium). *)
Definition general_intent_text : string :=
  "{" ++ quoted "category" ++ ":" ++ quoted "general" ++ ","
      ++ quoted "confidence" ++ ":0.9,"
      ++ quoted "action" ++ ":" ++ quoted "general_assistance" ++ ","
      ++ quoted "business" ++ ":" ++ quoted "both" ++ ","
      ++ quoted "priority" ++ ":" ++ quoted "medium" ++ "}".

(** A configured service that classifies as general and then completes
    with [content: null]. *)
Definition null_completion_env : Env :=
  mkEnv live_key
    (Responded
       (mkReply 200 (completion_body (JStr general_intent_text))
          (Some (mkIntent "general" (9 # 10) "general_assistance" "both"
                   "medium"))))
    (Responded (mkReply 200 (completion_body JNull) (Some JNull)))
    "id" 0 0.

(** ** updateEnvFile (lines 737-772)

    The [.env] file is text; the host keeps the file (absent or with its
    content), whether the file system accepts a write, the assignments
    made to [process.env] (the latest first, as the program wrote them;
    how the platform stores a variable is not modelled) and what
    [console.error] printed. *)

Module EnvFile.

Definition newline : ascii := ascii_of_nat 10.

(** [s.split('\n')]. *)
Fixpoint split (s : string) : list string :=
  match s with
  | EmptyString => [EmptyString]
  | String c s' =>
      if Ascii.eqb c newline then EmptyString :: split s'
      else match split s' with
           | line :: rest => String c line :: rest
           | [] => [String c EmptyString]
           end
  end.

(** [lines.join('\n')]. *)
Fixpoint join (lines : list string) : string :=
  match lines with
  | [] => EmptyString
  | [line] => line
  | line :: rest => line ++ String newline (join rest)
  end.

(** [`${key}=${value}`]. *)
Definition entry (key value : string) : string := key ++ "=" ++ value.

(** [line.startsWith(`${key}=`)]. *)
Definition is_entry_of (key line : string) : bool := String.prefix (key ++ "=") line.

(** The loop of lines 751-757: the first line that starts with [key=] is
    replaced and the loop stops; the flag is [found]. *)
Fixpoint replace_first (key value : string) (lines : list string)
  : list string * bool :=
  match lines with
  | [] => ([], false)
  | line :: rest =>
      if is_entry_of key line then (entry key value :: rest, true)
      else let (rest', found) := replace_first key value rest in
           (line :: rest', found)
  end.

(** The lines after the loop and the push. *)
Definition rewritten (key value : string) (lines : list string) : list string :=
  let (lines', found) := replace_first key value lines in
  if found then lines' else (lines' ++ [entry key value])%list.

(** Lines 748-763: the text written for the text read. *)
Definition updated (envContent key value : string) : string :=
  let (lines, found) := replace_first key value (split envContent) in
  join (if found then lines else (lines ++ [entry key value])%list).

(** The line of the file that holds [key]: the first that starts with
    [key=], as the loop looks for it. *)
Definition line_of (key envContent : string) : option string :=
  find (is_entry_of key) (split envContent).

Record Host : Type := mkHost {
  env_file : option string;
  writable : bool;
  process_env : list (string * string);
  host_console : list string
}.

Fixpoint getenv (key : string) (vars : list (string * string)) : option string :=
  match vars with
  | [] => None
  | (k, v) :: rest => if k =? key then Some v else getenv key rest
  end.

(** [envContent] as lines 743-746 read it: the text of the file, [''] when
    there is no file. *)
Definition env_text (h : Host) : string :=
  match env_file h with
  | Some text => text
  | None => EmptyString
  end.

(** How a call ends: it returns, or it raises the error of the file
    system. *)
Inductive Completion : Type :=
| Returns
| Raises.

(** [updateEnvFile(key, value)]: the content is read ([''] when the file
    does not exist), rewritten and written back, then [process.env[key]] is
    assigned; an error of the write is printed and raised again. *)
Definition updateEnvFile (key value : string) (h : Host) : Completion * Host :=
  let envContent := env_text h in
  if writable h
  then (Returns,
        mkHost (Some (updated envContent key value)) (writable h)
          ((key, value) :: process_env h) (host_console h))
  else (Raises,
        mkHost (env_file h) (writable h) (process_env h)
          (host_console h ++ ["Error updating .env file:"])).

(** The character [c] occurs in [s]. *)
Fixpoint has_char (c : ascii) (s : string) : bool :=
  match s with
  | EmptyString => false
  | String c' s' => Ascii.eqb c' c || has_char c s'
  end.

(** A text that fits on one line. *)
Definition one_line (s : string) : Prop := has_char newline s = false.

(** A name without the sign [=]. *)
Definition plain_key (key : string) : Prop :=
  has_char (ascii_of_nat 61) key = false /\ one_line key.

End EnvFile.

(** A [.env] file of two lines, [PORT=3003] and [OPENAI_API_KEY=old]. *)
Definition sample_host : EnvFile.Host :=
  EnvFile.mkHost
    (Some (EnvFile.entry "PORT" "3003"
           ++ String EnvFile.newline (EnvFile.entry "OPENAI_API_KEY" "old")))
    true [] [].

(** ** Configuration (lines 34-89) and its routes

    The part of [this.config.apis] the modelled routes read and write;
    a credential is a string or [undefined]. *)

Record ApiConfig : Type := mkConfig {
  cfg_openai_key : option string;
  cfg_perplexity_key : option string;
  cfg_twilio_accountSid : option string;
  cfg_twilio_authToken : option string;
  cfg_gmail_clientId : option string;
  cfg_gmail_clientSecret : option string;
  cfg_gmail_accessToken : option string;
  cfg_whispr_key : option string;
  cfg_whispr_enabled : bool
}.

(** The server: its configuration and its host. *)
Record Server : Type := mkServer {
  config : ApiConfig;
  host : EnvFile.Host
}.

(** What a route sends: [res.status(status).json(body)] (status 200 for
    [res.json(body)]). *)
Inductive Sent : Type :=
| Json (status : Z) (body : JSValue).


Definition sent_body (s : Sent) : JSValue := match s with Json _ body => body end.

(** [body.success === true]. *)
Definition sent_success (s : Sent) : bool :=
  match JS.get (sent_body s) "success" with
  | inr (JBool true) => true
  | _ => false
  end.

(** [v.a.b...]: the properties of a path, read one after the other. *)
Fixpoint path (v : JSValue) (names : list string) : Error + JSValue :=
  match names with
  | [] => inr v
  | name :: rest =>
      match JS.get v name with
      | inl e => inl e
      | inr v' => path v' rest
      end
  end.

(** ToBoolean of a string or [undefined]. *)
Definition present (credential : option string) : bool :=
  match credential with
  | Some s => negb (s =? "")
  | None => false
  end.

(** [key && key !== 'test_key_placeholder'], as a boolean. *)
Definition real_key (key : option string) : bool :=
  present key
  && match key with
     | Some k => negb (k =? "test_key_placeholder")
     | None => true
     end.

Definition service_status (configured : bool) : JSValue :=
  JObj [ ("configured", JBool configured);
         ("status", JStr (if configured then "connected" else "disconnected")) ].

(** getConfigStatus (lines 592-625). The two expressions of each service
    are the same test, once under [!!] and once under [? :]. *)
Definition getConfigStatus (cfg : ApiConfig) : Sent :=
  Json 200
    (JObj [ ("success", JBool true);
            ("status",
             JObj [ ("openai", service_status (real_key (cfg_openai_key cfg)));
                    ("perplexity", service_status (real_key (cfg_perplexity_key cfg)));
                    ("twilio",
                     service_status (present (cfg_twilio_accountSid cfg)
                                     && present (cfg_twilio_authToken cfg)));
                    ("gmail",
                     service_status (present (cfg_gmail_clientId cfg)
                                     && present (cfg_gmail_clientSecret cfg)));
                    ("whispr",
                     service_status (present (cfg_whispr_key cfg)
                                     && cfg_whispr_enabled cfg));
                    ("mcp", JObj [ ("configured", JBool true);
                                   ("status", JStr "available") ]) ]) ]).

Definition set_openai_key (key : option string) (cfg : ApiConfig) : ApiConfig :=
  mkConfig key (cfg_perplexity_key cfg) (cfg_twilio_accountSid cfg)
    (cfg_twilio_authToken cfg) (cfg_gmail_clientId cfg)
    (cfg_gmail_clientSecret cfg) (cfg_gmail_accessToken cfg)
    (cfg_whispr_key cfg) (cfg_whispr_enabled cfg).

(** [console.error(label, error)] on the host. *)
Definition host_error (label : string) (h : EnvFile.Host) : EnvFile.Host :=
  EnvFile.mkHost (EnvFile.env_file h) (EnvFile.writable h)
    (EnvFile.process_env h) (EnvFile.host_console h ++ [label]).

Definition failure_body (error : string) : JSValue :=
  JObj [ ("success", JBool false); ("error", JStr error) ].

Definition success_body (message : string) : JSValue :=
  JObj [ ("success", JBool true); ("message", JStr message) ].

(** updateOpenAIConfig (lines 627-643); [api_key] is a string or absent.
    [!api_key || api_key.length < 10] refuses the request; otherwise the
    key goes to the [.env] file and then to the configuration. *)
Definition updateOpenAIConfig (api_key : option string) (s : Server)
  : Sent * Server :=
  match api_key with
  | None => (Json 400 (failure_body "Invalid API key"), s)
  | Some k =>
      if (k =? "") || (String.length k <? 10)%nat
      then (Json 400 (failure_body "Invalid API key"), s)
      else
        match EnvFile.updateEnvFile "OPENAI_API_KEY" k (host s) with
        | (EnvFile.Returns, h') =>
            (Json 200
               (success_body "OpenAI configuration updated. Restart required."),
             mkServer (set_openai_key (Some k) (config s)) h')
        | (EnvFile.Raises, h') =>
            (Json 500 (failure_body "Failed to update OpenAI configuration"),
             mkServer (config s) (host_error "OpenAI config error:" h'))
        end
  end.

(** updateMCPConfig (lines 724-735); [server_url] is a string or absent,
    [enabled] any value. *)
Definition updateMCPConfig (server_url : option string) (enabled : JSValue)
    (s : Server) : Sent * Server :=
  match EnvFile.updateEnvFile "MCP_SERVER_URL"
          (or_default server_url "http://localhost:3001") (host s) with
  | (EnvFile.Raises, h1) =>
      (Json 500 (failure_body "Failed to update MCP configuration"),
       mkServer (config s) (host_error "MCP config error:" h1))
  | (EnvFile.Returns, h1) =>
      match EnvFile.updateEnvFile "MCP_ENABLED"
              (if JS.truthy enabled then "true" else "false") h1 with
      | (EnvFile.Raises, h2) =>
          (Json 500 (failure_body "Failed to update MCP configuration"),
           mkServer (config s) (host_error "MCP config error:" h2))
      | (EnvFile.Returns, h2) =>
          (Json 200
             (success_body "MCP configuration updated. Restart required."),
           mkServer (config s) h2)
      end
  end.

(** The environment of a dispatch under a configuration. *)
Definition env_of (cfg : ApiConfig) (answers : Env) : Env :=
  mkEnv (cfg_openai_key cfg) (classification answers) (completion answers)
    (uuid answers) (log_time answers) (reply_time answers).

(** ** processVoiceInput (lines 480-520) *)

(** [transcribeAudio] (lines 516-520). *)
Definition transcribeAudio (audioData format : JSValue) : string :=
  "Voice transcription would be processed here".

(** [handleChatMessage] called with the response object
    [{ json: () => {} }]: [res.json] does nothing and the handler returns
    [undefined]; in the [catch] clause [res.status] is not a function, so
    the clause raises a TypeError after it printed. *)
Definition handleChatMessage_stub (env : Env) (rq : ChatRequest) : M JSValue :=
  fun st =>
    match chat_steps env rq st with
    | (inr _, st') => (inr JUndefined, st')
    | (inl _, st') => (inl TypeError, failed st')
    end.

Definition voice_request (audioData format : JSValue) : ChatRequest :=
  mkChat (transcribeAudio audioData format) (JObj [("source", JStr "voice")]) None.

Definition processVoiceInput (cfg : ApiConfig) (env : Env)
    (audioData format : JSValue) (st : Store) : Sent * Store :=
  if negb (cfg_whispr_enabled cfg)
  then (Json 503 (failure_body "Voice processing not configured"), st)
  else
    let transcription := transcribeAudio audioData format in
    let attempt :=
      (chatResponse <- handleChatMessage_stub env (voice_request audioData format) ;;
       response <- lift (JS.get chatResponse "response") ;;
       ret (Json 200
              (JObj [ ("success", JBool true);
                      ("transcription", JStr transcription);
                      ("response", response);
                      ("timestamp", JNum (inject_Z (reply_time env))) ]))) in
    match attempt st with
    | (inr sent, st') => (sent, st')
    | (inl _, st') =>
        (Json 500 (failure_body "Voice processing failed"),
         snd (console_error "Voice processing error:" st'))
    end.

Definition blank_config : ApiConfig :=
  mkConfig None None None None None None None None false.

(** What a capability answers to the keyword classifier's Intent: a text,
    or the five image prompts. *)
Definition offline_answer (rq : ChatRequest) (response : JSValue) : Prop :=
  (exists text, response = JStr text)
  \/ response
     = JObj [ ("response",
               JStr ("Here are 5 professional high-end image prompts for "
                     ++ or_default (businessContext rq) "your business" ++ ":"));
              ("prompts", JArr (billyGeneTemplates (businessContext rq)));
              ("promptType", JStr "high-end-image") ].

(** A run of the chat route: the requests are served one after the other,
    each in its environment, on the store the previous one left. *)
Fixpoint serve (run : list (Env * ChatRequest)) (st : Store) : Store :=
  match run with
  | [] => st
  | (env, rq) :: rest => serve rest (snd (handleChatMessage env rq st))
  end.

(** ** generateContentCalendar (lines 1006-1126) *)

Module ContentCalendar.


Definition contentThemes (business audience : string) : list JSValue :=
  [
  JObj [ ("day", JStr "Monday");
         ("theme", JStr "Motivation Monday");
         ("content", JStr ("Inspirational content and success stories for " ++
                              audience ++
                              " using " ++
                              business));
         ("postIdeas",
          JArr [ JStr ("Success story: How " ++
                      audience ++
                      " transformed their results with " ++
                      business);
                 JStr ("Monday motivation: Why " ++
                      audience ++
                      " choose " ++
                      business ++
                      " for success");
                 JStr ("Weekly goal: What " ++
                      audience ++
                      " can achieve this week with " ++
                      business) ]);
         ("optimalTime", JStr "8:00 AM");
         ("hashtags", JArr [JStr "#MotivationMonday"; JStr "#Success"; JStr "#Transformation"]) ];
  JObj [ ("day", JStr "Tuesday");
         ("theme", JStr "Tips Tuesday");
         ("content", JStr ("Educational content and industry insights for " ++
                              audience));
         ("postIdeas",
          JArr [ JStr ("5 tips " ++
                      audience ++
                      " needs to know about " ++
                      business);
                 JStr ("Common mistakes " ++
                      audience ++
                      " makes (and how to fix them)");
                 JStr ("Expert advice: How " ++
                      business ++
                      " solves " ++
                      audience ++
                      " problems") ]);
         ("optimalTime", JStr "9:00 AM");
         ("hashtags", JArr [JStr "#TipsTuesday"; JStr "#Education"; JStr "#Expert"]) ];
  JObj [ ("day", JStr "Wednesday");
         ("theme", JStr "Wisdom Wednesday");
         ("content", JStr ("Expert advice and problem-solving for " ++
                              audience));
         ("postIdeas",
          JArr [ JStr ("Industry secrets " ++
                      audience ++
                      " should know about " ++
                      business);
                 JStr ("Q&A: Top questions " ++
                      audience ++
                      " asks about " ++
                      business);
                 JStr ("Behind-the-scenes: How we help " ++
                      audience ++
                      " succeed") ]);
         ("optimalTime", JStr "11:00 AM");
         ("hashtags", JArr [JStr "#WisdomWednesday"; JStr "#Insights"; JStr "#QandA"]) ];
  JObj [ ("day", JStr "Thursday");
         ("theme", JStr "Throwback Thursday");
         ("content", JStr ("Case studies and testimonials from " ++
                              audience));
         ("postIdeas",
          JArr [ JStr ("Case study: " ++
                      audience ++
                      " success story with " ++
                      business);
                 JStr ("Before & after: " ++
                      audience ++
                      " transformation");
                 JStr ("Testimonial Thursday: What " ++
                      audience ++
                      " says about " ++
                      business) ]);
         ("optimalTime", JStr "2:00 PM");
         ("hashtags", JArr [JStr "#ThrowbackThursday"; JStr "#CaseStudy"; JStr "#Testimonial"]) ];
  JObj [ ("day", JStr "Friday");
         ("theme", JStr "Feature Friday");
         ("content", JStr ("Product/service highlights and demos for " ++
                              audience));
         ("postIdeas",
          JArr [ JStr ("Feature spotlight: How " ++
                      business ++
                      " helps " ++
                      audience);
                 JStr ("Demo Friday: " ++
                      business ++
                      " in action for " ++
                      audience);
                 JStr ("Weekend prep: How " ++
                      audience ++
                      " can use " ++
                      business) ]);
         ("optimalTime", JStr "3:00 PM");
         ("hashtags", JArr [JStr "#FeatureFriday"; JStr "#Demo"; JStr "#ProductSpotlight"]) ];
  JObj [ ("day", JStr "Saturday");
         ("theme", JStr "Success Saturday");
         ("content", JStr ("Customer wins and social proof from " ++
                              audience));
         ("postIdeas",
          JArr [ JStr ("Success Saturday: " ++
                      audience ++
                      " celebrating wins with " ++
                      business);
                 JStr ("Weekend wins: How " ++
                      business ++
                      " helps " ++
                      audience ++
                      " succeed");
                 JStr ("Community spotlight: Amazing " ++
                      audience ++
                      " using " ++
                      business) ]);
         ("optimalTime", JStr "12:00 PM");
         ("hashtags", JArr [JStr "#SuccessSaturday"; JStr "#CustomerWins"; JStr "#Community"]) ];
  JObj [ ("day", JStr "Sunday");
         ("theme", JStr "Sunday Stories");
         ("content", JStr ("Behind-the-scenes and personal touch for " ++
                              audience));
         ("postIdeas",
          JArr [ JStr ("Sunday story: Why we created " ++
                      business ++
                      " for " ++
                      audience);
                 JStr ("Behind-the-scenes: Our mission to help " ++
                      audience);
                 JStr ("Sunday reflection: Impact we've made for " ++
                      audience) ]);
         ("optimalTime", JStr "1:00 PM");
         ("hashtags", JArr [JStr "#SundayStories"; JStr "#BehindTheScenes"; JStr "#Mission"]) ] ].

(** [weeks = 1] in the destructuring: the default stands for an absent
    field. *)
Definition weeks_or_default (weeks : option Q) : Q :=
  match weeks with
  | Some w => w
  | None => 1%Q
  end.

(** The number of rounds of [for (let week = 0; week < weeks; week++)]:
    the weeks 0, 1, ... below [weeks]. *)
Definition iterations (weeks : Q) : nat := Z.to_nat (Qceiling weeks).

(** [{ ...dayTheme, week: week + 1, business: business, audience: audience }]. *)
Definition with_week (business audience : string) (week : nat)
    (dayTheme : JSValue) : JSValue :=
  match dayTheme with
  | JObj fields =>
      JObj (fields ++ [ ("week", JNum (inject_Z (Z.of_nat week + 1)));
                        ("business", JStr business);
                        ("audience", JStr audience) ])
  | other => other
  end.

(** The calendar after the loop of lines 1098-1108. *)
Definition calendar (business audience : string) (weeks : Q) : list JSValue :=
  flat_map
    (fun week => map (with_week business audience week)
                   (contentThemes business audience))
    (seq 0 (iterations weeks)).


End ContentCalendar.

(** ** generatePrompts (lines 913-958) *)

Module Prompts.

Definition high_end_image (business audience style : string) (context : option string)
  : list JSValue :=
  [ JStr ("Create a cinematic, high-budget commercial style image of " ++
         business ++
         ". Shot with professional lighting, shallow depth of field, and dramatic color grading. Include luxury brand aesthetics, premium materials, and sophisticated composition that conveys exclusivity and high value for " ++
         audience ++
         ".");
    JStr ("Professional lifestyle photography showing " ++
         audience ++
         " using " ++
         business ++
         " in an aspirational setting. Clean, modern aesthetic with natural lighting. Show the transformation and elevated lifestyle this product enables. Include authentic human emotion and premium environment details.");
    JStr ("Split-screen comparison image showing 'before and after' or 'problem vs solution' for " ++
         audience ++
         ". Left side shows frustration/difficulty, right side shows ease/success with " ++
         business ++
         ". Professional photography with clear visual storytelling and emotional impact.");
    JStr ("Professional headshot/environment showing expertise and credibility around " ++
         business ++
         ". Include certifications, awards, professional setting, and visual elements that establish authority for " ++
         audience ++
         ". Warm, trustworthy lighting with confidence-inspiring composition.");
    JStr ("Dynamic collage showing multiple happy " ++
         audience ++
         " members using " ++
         business ++
         ". Include diverse demographics, genuine expressions, and results/outcomes. Professional montage style with consistent branding and positive energy throughout.") ].

Definition viral_video (business audience style : string) (context : option string)
  : list JSValue :=
  [ JStr ("Time-lapse video showing dramatic transformation using " ++
         business ++
         ". Start with 'before' state, show process/journey, end with amazing 'after' results for " ++
         audience ++
         ". Include uplifting music, smooth transitions, and emotional payoff that makes viewers want to share.");
    JStr ("Authentic behind-the-scenes footage showing how " ++
         business ++
         " is created or delivered. Include 'wow' moments, expertise in action, and personality for " ++
         audience ++
         ". Raw, genuine feel that builds trust and showcases craftsmanship or process excellence.");
    JStr ("Real " ++
         audience ++
         " member testimonial in documentary-style format. Show their initial problem, how they found " ++
         business ++
         " solution, and the amazing results. Include genuine emotion, specific details, and visual proof of transformation or success.");
    JStr ("Educational content that hooks viewers with " ++
         dquote ++
         "Did you know..." ++
         dquote ++
         " or " ++
         dquote ++
         "Here's what [industry] doesn't want " ++
         audience ++
         " to know about [topic]" ++
         dquote ++
         ". Share valuable insights while positioning " ++
         business ++
         " as the solution. Include visual aids and clear explanations.");
    JStr ("Adapt current trending video format/challenge to showcase " ++
         business ++
         ". Include popular music, trending effects, and format that " ++
         audience ++
         " engages with, while naturally integrating your value proposition.") ].

Definition billy_gene_ads (business audience style : string) (context : option string)
  : list JSValue :=
  [ JStr ("Give me 10 different types of audiences that would be interested in trading me money in exchange for " ++
         business ++
         ". In this case " ++
         business ++
         " is " ++
         or_default context "your product/service" ++
         ".");
    JStr ("What are 10 problems that " ++
         audience ++
         " specifically experience that " ++
         business ++
         " can help solve, alleviate, or remedy.");
    JStr ("Write a Facebook ad to sell " ++
         business ++
         " for " ++
         audience ++
         " who is experiencing [insert chosen problem above]. Write from the perspective of the business owner in a " ++
         style ++
         " tone. Use urgency-based incentives and clear call to action.");
    JStr ("What are 10 opinions that people argue about when it comes to " ++
         business ++
         ". Create viral content around these controversial topics for " ++
         audience ++
         ".");
    JStr ("Give me 10 tips about " ++
         business ++
         " that " ++
         audience ++
         " probably doesn't know but would appreciate. Make this educational and valuable content that positions you as an authority.") ].

(** The own properties of [billyGeneTemplates], in the order of the
    literal. *)
Definition billyGeneTemplates (business audience style : string)
    (context : option string) : list (string * list JSValue) :=
  [ ("high-end-image", high_end_image business audience style context);
    ("viral-video", viral_video business audience style context);
    ("billy-gene-ads", billy_gene_ads business audience style context) ].







End Prompts.

(** Two calendar entries that name the same day, theme and posting time. *)
Definition same_slot (a b : JSValue) : Prop :=
  JS.get a "day" = JS.get b "day"
  /\ JS.get a "theme" = JS.get b "theme"
  /\ JS.get a "optimalTime" = JS.get b "optimalTime".


(** ** getEmails (lines 844-910)

    The class defines [getEmails] twice; the later definition, modelled
    here, is the one the route is bound to. *)

Module Gmail.

(** What the Gmail service answers to one [axios.get]. *)
Inductive Answer : Type :=
| Unreachable
| Responds (status : Z) (data : JSValue).

(** The answers the route meets: one to the listing request, and one to
    the detail request of each position of the loop. *)
Record World : Type := mkWorld {
  listing : Answer;
  details : nat -> Answer
}.

(** The requests sent; a detail request is named by the [message.id] its
    address is built from. *)
Inductive Call : Type :=
| ListUnread
| GetMessage (id : JSValue).

Record Trace : Type := mkTrace {
  calls : list Call;
  errors : list string
}.

(** What a [catch] clause of the route receives: the rejection of
    [axios.get], with [error.response.status] when the service answered,
    or an error raised by the program. *)
Inductive Caught : Type :=
| Rejected (status : option Z)
| Thrown (e : Error).

(** [axios.get] on an answer. *)
Definition axios_get (a : Answer) : Caught + JSValue :=
  match a with
  | Unreachable => inl (Rejected None)
  | Responds status data =>
      if validateStatus status then inr data else inl (Rejected (Some status))
  end.

(** [headers.find(h => h.name === name)]: the first header of that name,
    [undefined] when there is none. *)
Fixpoint find_header (name : string) (headers : list JSValue) : Error + JSValue :=
  match headers with
  | [] => inr JUndefined
  | h :: rest =>
      match JS.get h "name" with
      | inl e => inl e
      | inr (JStr n) => if n =? name then inr h else find_header name rest
      | inr _ => find_header name rest
      end
  end.

(** [headers.find(h => h.name === name)?.value || fallback]. *)
Definition header_value (name fallback : string) (headers : list JSValue)
  : Error + JSValue :=
  match find_header name headers with
  | inl e => inl e
  | inr JUndefined => inr (JStr fallback)
  | inr h =>
      match JS.get h "value" with
      | inl e => inl e
      | inr v => inr (JS.or_else v (JStr fallback))
      end
  end.

(** Lines 877-887: the entry built from the body of a detail answer;
    [headers.find] raises when [headers] is not an array. *)
Definition email_detail (email : JSValue) : Error + JSValue :=
  match JS.get email "payload" with
  | inl e => inl e
  | inr payload =>
      match JS.get payload "headers" with
      | inl e => inl e
      | inr (JArr headers) =>
          match JS.get email "id", JS.get email "threadId",
                header_value "Subject" "No Subject" headers,
                header_value "From" "Unknown Sender" headers,
                header_value "Date" "Unknown Date" headers,
                JS.get email "snippet" with
          | inr id, inr threadId, inr subject, inr from, inr date, inr snippet =>
              inr (JObj [ ("id", id); ("threadId", threadId);
                          ("subject", subject); ("from", from);
                          ("date", date); ("snippet", snippet) ])
          | _, _, _, _, _, _ => inl TypeError
          end
      | inr _ => inl TypeError
      end
  end.

Definition inner_label : string := "Error fetching email details:".

Definition print (label : string) (tr : Trace) : Trace :=
  mkTrace (calls tr) (errors tr ++ [label]).

Definition call (c : Call) (tr : Trace) : Trace :=
  mkTrace (calls tr ++ [c]) (errors tr).

(** One round of the loop of lines 869-891, for the message at position
    [i]: the entry is pushed, or the error is printed and the loop goes
    on. *)
Definition fetch_detail (w : World) (i : nat) (message : JSValue)
    (emailDetails : list JSValue) (tr : Trace) : list JSValue * Trace :=
  match JS.get message "id" with
  | inl _ => (emailDetails, print inner_label tr)
  | inr id =>
      let tr := call (GetMessage id) tr in
      match axios_get (details w i) with
      | inl _ => (emailDetails, print inner_label tr)
      | inr email =>
          match email_detail email with
          | inl _ => (emailDetails, print inner_label tr)
          | inr entry => ((emailDetails ++ [entry])%list, tr)
          end
      end
  end.

Fixpoint fetch_details (w : World) (i : nat) (messages : list JSValue)
    (emailDetails : list JSValue) (tr : Trace) : list JSValue * Trace :=
  match messages with
  | [] => (emailDetails, tr)
  | message :: rest =>
      let (emailDetails', tr') := fetch_detail w i message emailDetails tr in
      fetch_details w (S i) rest emailDetails' tr'
  end.

(** The characters of a string, each as a string: what [for ... of]
    walks through. *)
Fixpoint characters (s : string) : list JSValue :=
  match s with
  | EmptyString => []
  | String c s' => JStr (String c EmptyString) :: characters s'
  end.

(** [messages.slice(0, 5)] as the loop walks it, and [messages.length]:
    defined for an array and for a string; any other truthy value has no
    [slice] and the call raises. *)
Definition first_five (messages : JSValue) : Error + list JSValue :=
  match messages with
  | JArr items => inr (firstn 5 items)
  | JStr s => inr (firstn 5 (characters s))
  | _ => inl TypeError
  end.

Definition length_of (messages : JSValue) : JSValue :=
  match messages with
  | JArr items => JNum (inject_Z (Z.of_nat (length items)))
  | JStr s => JNum (inject_Z (Z.of_nat (String.length s)))
  | _ => JUndefined
  end.

Definition not_authenticated : Sent :=
  Json 401 (JObj [ ("success", JBool false);
                   ("error", JStr "Gmail not authenticated");
                   ("authUrl", JStr "/auth/gmail") ]).

Definition expired : Sent :=
  Json 401 (JObj [ ("success", JBool false);
                   ("error", JStr "Gmail authentication expired");
                   ("authUrl", JStr "/auth/gmail") ]).

Definition failed_to_fetch : Sent := Json 500 (failure_body "Failed to fetch emails").

(** The outer [catch] clause (lines 898-909). *)
Definition on_error (error : Caught) (tr : Trace) : Sent * Trace :=
  let tr := print "Get emails error:" tr in
  match error with
  | Rejected (Some status) =>
      if (status =? 401)%Z then (expired, tr) else (failed_to_fetch, tr)
  | _ => (failed_to_fetch, tr)
  end.

Definition getEmails (cfg : ApiConfig) (w : World) (tr : Trace) : Sent * Trace :=
  if negb (present (cfg_gmail_accessToken cfg))
  then (not_authenticated, tr)
  else
    let tr := call ListUnread tr in
    match axios_get (listing w) with
    | inl error => on_error error tr
    | inr data =>
        match JS.get data "messages" with
        | inl e => on_error (Thrown e) tr
        | inr listed =>
            let messages := JS.or_else listed (JArr []) in
            match first_five messages with
            | inl e => on_error (Thrown e) tr
            | inr five =>
                let (emailDetails, tr') := fetch_details w 0 five [] tr in
                (Json 200 (JObj [ ("success", JBool true);
                                  ("emails", JArr emailDetails);
                                  ("total", length_of messages) ]),
                 tr')
            end
        end
    end.

End Gmail.

(** A Gmail body of [n] listed messages with the identifiers 0, 1, ... *)
Definition listed_messages (n : nat) : JSValue :=
  JObj [ ("messages",
          JArr (map (fun i => JObj [("id", JNum (inject_Z (Z.of_nat i)))])
                  (seq 0 n))) ].

(** The service lists seven unread messages and answers the detail
    requests of the even positions only, each with a message without
    headers. *)
Definition flaky_gmail : Gmail.World :=
  Gmail.mkWorld (Gmail.Responds 200 (listed_messages 7))
    (fun i => if Nat.even i
              then Gmail.Responds 200
                     (JObj [ ("id", JStr "m"); ("threadId", JStr "t");
                             ("payload", JObj [("headers", JArr [])]);
                             ("snippet", JStr "hello") ])
              else Gmail.Unreachable).

Definition gmail_config (token : option string) : ApiConfig :=
  mkConfig None None None None None None token None false.

Definition no_trace : Gmail.Trace := Gmail.mkTrace [] [].

(** [`${value}`] for a value that is a string or [undefined]. *)
Definition text_of (value : option string) : string :=
  match value with
  | Some s => s
  | None => "undefined"
  end.

Definition set_perplexity_key (key : option string) (cfg : ApiConfig) : ApiConfig :=
  mkConfig (cfg_openai_key cfg) key (cfg_twilio_accountSid cfg)
    (cfg_twilio_authToken cfg) (cfg_gmail_clientId cfg)
    (cfg_gmail_clientSecret cfg) (cfg_gmail_accessToken cfg)
    (cfg_whispr_key cfg) (cfg_whispr_enabled cfg).

(** updatePerplexityConfig (lines 645-656); [api_key] is a string or
    absent, and is not checked. *)
Definition updatePerplexityConfig (api_key : option string) (s : Server)
  : Sent * Server :=
  match EnvFile.updateEnvFile "PERPLEXITY_API_KEY" (text_of api_key) (host s) with
  | (EnvFile.Returns, h') =>
      (Json 200
         (success_body "Perplexity configuration updated. Restart required."),
       mkServer (set_perplexity_key api_key (config s)) h')
  | (EnvFile.Raises, h') =>
      (Json 500 (failure_body "Failed to update Perplexity configuration"),
       mkServer (config s) (host_error "Perplexity config error:" h'))
  end.

(** [if (field) await this.updateEnvFile(key, field)]. *)
Definition write_if (key : string) (field : option string) (h : EnvFile.Host)
  : EnvFile.Completion * EnvFile.Host :=
  if present field then EnvFile.updateEnvFile key (text_of field) h
  else (EnvFile.Returns, h).

(** updateSocialConfig (lines 708-722); each field is a string or absent. *)
Definition updateSocialConfig (twitter_key linkedin_id facebook_token : option string)
    (s : Server) : Sent * Server :=
  let failure h :=
    (Json 500 (failure_body "Failed to update social media configuration"),
     mkServer (config s) (host_error "Social config error:" h)) in
  match write_if "TWITTER_API_KEY" twitter_key (host s) with
  | (EnvFile.Raises, h1) => failure h1
  | (EnvFile.Returns, h1) =>
      match write_if "LINKEDIN_CLIENT_ID" linkedin_id h1 with
      | (EnvFile.Raises, h2) => failure h2
      | (EnvFile.Returns, h2) =>
          match write_if "FACEBOOK_ACCESS_TOKEN" facebook_token h2 with
          | (EnvFile.Raises, h3) => failure h3
          | (EnvFile.Returns, h3) =>
              (Json 200
                 (success_body
                    "Social media configuration updated. Restart required."),
               mkServer (config s) h3)
          end
      end
  end.

(** The line a conditional write leaves for its key. *)
Definition line_after (key : string) (field : option string) (before : option string)
  : option string :=
  if present field then Some (EnvFile.entry key (text_of field)) else before.

(** A field that, when given, fits on one line. *)
Definition fits (field : option string) : Prop := EnvFile.one_line (text_of field).


(** A reply whose content [JSON.parse] turns into [v]. *)
Definition parsed_reply (r : Reply) (v : JSValue) : Prop :=
  validateStatus (status r) = true
  /\ (exists c, content r = inr c)
  /\ content_json r = Some v.

(** A configured service whose classification reply is the JSON text
    [null]. *)
Definition null_intent_env : Env :=
  mkEnv live_key
    (Responded (mkReply 200 (completion_body (JStr "null")) (Some JNull)))
    NetworkError "id" 0 0.

(** * Properties *)

(** ** Strings *)

Lemma prefix_lowercase kw :
  toLowerCase kw = kw ->
  forall s, String.prefix kw (toLowerCase s) = Reference.starts_with kw s.
Proof.
  induction kw as [|a kw IH]; intros Hkw s.
  - destruct s; reflexivity.
  - simpl in Hkw. injection Hkw as Ha Hkw'.
    destruct s as [|b s]; simpl.
    + reflexivity.
    + unfold Reference.same_letter. rewrite Ha.
      destruct (ascii_dec a (lower_char b)) as [E|N].
      * subst a. rewrite Ascii.eqb_refl. simpl. apply IH, Hkw'.
      * apply Ascii.eqb_neq in N. rewrite N. reflexivity.
Qed.

Lemma includes_lowercase kw :
  toLowerCase kw = kw ->
  forall s, includes (toLowerCase s) kw = Reference.occurs kw s.
Proof.
  intros Hkw s. induction s as [|b s IH].
  - pose proof (prefix_lowercase kw Hkw "") as H.
    simpl in H |- *. rewrite H. reflexivity.
  - change (toLowerCase (String b s)) with (String (lower_char b) (toLowerCase s)).
    change (includes (String (lower_char b) (toLowerCase s)) kw)
      with (String.prefix kw (String (lower_char b) (toLowerCase s))
            || includes (toLowerCase s) kw).
    change (String (lower_char b) (toLowerCase s)) with (toLowerCase (String b s)).
    rewrite (prefix_lowercase kw Hkw), IH. reflexivity.
Qed.

(** ** The fallback classifier *)

Lemma analyzeIntent_keyword_branch env message context st :
  unconfigured (openai_key env) = true ->
  analyzeIntent env message context st = (inr (keywordIntent message), st).
Proof.
  intros H. unfold analyzeIntent, try_catch. rewrite H. reflexivity.
Qed.

Lemma keywordIntent_agrees message :
  Reference.agrees (keywordIntent message) (Reference.classify message).
Proof.
  unfold keywordIntent. cbv zeta.
  rewrite !includes_lowercase by reflexivity.
  unfold Reference.classify, Reference.keyword_sets.
  cbn [find Reference.matches existsb fst].
  repeat match goal with
         | |- context [if Reference.occurs ?kw message then _ else _] =>
             destruct (Reference.occurs kw message); cbn;
             [solve [repeat split] |]
         | |- context [if Reference.occurs ?kw message || _ then _ else _] =>
             destruct (Reference.occurs kw message); cbn;
             [solve [repeat split] |]
         end.
  repeat split.
Qed.

(** The nine Intents of the keyword branch share business, priority and
    a non-empty action. *)
Lemma keywordIntent_shape message :
  exists category confidence action,
    keywordIntent message = mkIntent category confidence action "both" "medium"
    /\ action <> "".
Proof.
  unfold keywordIntent. cbv zeta.
  repeat match goal with
         | |- context [if ?b then _ else _] =>
             destruct b;
             [solve [do 3 eexists; split; [reflexivity | discriminate]] |]
         end.
  do 3 eexists; split; [reflexivity | discriminate].
Qed.

(** C1. With no credential configured, [analyzeIntent] returns, for every
    message and without touching the store, an Intent that depends on the
    message alone and agrees with the reference classifier of the
    specification: the first keyword set, in
    the order email, calendar/schedule, call/phone, research/analyze,
    social/content, client/project, prompt/generate, productive/goal, with
    a keyword occurring in the message (case ignored) gives the category,
    with confidence 0.7, business both and priority medium; a message with
    no keyword gives category general with confidence 0.6. *)
Theorem fallback_classifier_is_reference env message context st :
  unconfigured (openai_key env) = true ->
  analyzeIntent env message context st = (inr (keywordIntent message), st)
  /\ Reference.agrees (keywordIntent message) (Reference.classify message).
Proof.
  intros H. split.
  - apply analyzeIntent_keyword_branch, H.
  - apply keywordIntent_agrees.
Qed.

Lemma fallback_classifier_is_reference_witness :
  analyzeIntent (offline None) "Please EMAIL me the schedule" JUndefined
    empty_store
  = (inr (keywordIntent "Please EMAIL me the schedule"), empty_store)
  /\ Reference.agrees (keywordIntent "Please EMAIL me the schedule")
       (Reference.mkVerdict "email" (7 # 10) (Some "both") (Some "medium")).
Proof.
  apply (fallback_classifier_is_reference (offline None)
           "Please EMAIL me the schedule" JUndefined empty_store).
  reflexivity.
Defined.

(** C7. When the credential is absent or is the placeholder
    [test_key_placeholder], [analyzeIntent] returns the keyword
    classifier's Intent for the message, whatever the service would
    answer, and sends no request. *)
Theorem no_credential_no_request env message context st :
  openai_key env = None \/ openai_key env = Some "test_key_placeholder" ->
  fst (analyzeIntent env message context st) = inr (keywordIntent message)
  /\ requests (snd (analyzeIntent env message context st)) = requests st.
Proof.
  intros H.
  rewrite analyzeIntent_keyword_branch.
  - split; reflexivity.
  - destruct H as [-> | ->]; reflexivity.
Qed.

Lemma no_credential_no_request_witness :
  fst (analyzeIntent (offline (Some "test_key_placeholder")) "call Bob"
         JUndefined empty_store)
  = inr (mkIntent "phone" (7 # 10) "phone_assistance" "both" "medium")
  /\ requests (snd (analyzeIntent (offline (Some "test_key_placeholder"))
                      "call Bob" JUndefined empty_store)) = [].
Proof.
  apply (no_credential_no_request (offline (Some "test_key_placeholder"))
           "call Bob" JUndefined empty_store).
  right. reflexivity.
Defined.


(** ** The remote classifier *)

(** C2, as stated, fails: a payload that is JSON text but no Intent counts
    as a failed call, and [analyzeIntent] returns it as parsed, not the
    synthetic Intent. *)
Lemma unvalidated_payload_returned :
  unconfigured (openai_key unvalidated_env) = false
  /\ call_fails (classification unvalidated_env) = true
  /\ fst (analyzeIntent unvalidated_env "hello" JUndefined empty_store)
     = inr (JObj [])
  /\ JObj [] <> syntheticIntent.
Proof.
  repeat split. discriminate.
Qed.

(** C2, amended. With a credential configured, when the classification
    request meets a transport error or a status outside 2xx, or the body
    has no [choices[0].message.content], or the content is not JSON text,
    [analyzeIntent] does not raise: it prints the error and returns the
    synthetic Intent (general, 0.5, general_assistance, both, medium). *)
Theorem analyzeIntent_recovers env message context st :
  unconfigured (openai_key env) = false ->
  call_raises (classification env) = true ->
  analyzeIntent env message context st
  = (inr syntheticIntent,
     after_failed_call classification_request "Intent analysis error:" st).
Proof.
  intros Hkey Hraise.
  unfold analyzeIntent, try_catch, bind, axios_post, JSON_parse_content, bind.
  rewrite Hkey.
  destruct (classification env) as [|r]; [reflexivity|].
  cbn in Hraise.
  destruct (validateStatus (status r)); [|reflexivity].
  destruct (content r) as [e|v]; [reflexivity|].
  destruct (content_json r) as [v'|]; [discriminate|reflexivity].
Qed.

Lemma analyzeIntent_recovers_witness :
  analyzeIntent
    (mkEnv live_key (Responded (mkReply 503 JNull None)) NetworkError "id" 0 0)
    "hello" JUndefined empty_store
  = (inr syntheticIntent,
     mkStore [] [classification_request] ["Intent analysis error:"]).
Proof.
  apply (analyzeIntent_recovers
           (mkEnv live_key (Responded (mkReply 503 JNull None)) NetworkError
              "id" 0 0) "hello" JUndefined empty_store);
    reflexivity.
Defined.

(** ** The conversation log *)

Section SlidingWindow.

Context {A : Type}.
Variable n : nat.

Lemma slice_last_length (a : list A) : length (slice_last n a) <= n.
Proof. unfold slice_last. rewrite length_skipn. lia. Qed.

Lemma slice_last_short (a : list A) : length a <= n -> slice_last n a = a.
Proof.
  intros H. unfold slice_last.
  replace (length a - n) with 0 by lia. reflexivity.
Qed.

Lemma slice_last_full (a : list A) (x : A) :
  0 < n -> length a = n -> slice_last n (a ++ [x])%list = (tl a ++ [x])%list.
Proof.
  intros Hn Ha. unfold slice_last.
  rewrite length_app. simpl length.
  replace (length a + 1 - n) with 1 by lia.
  destruct a as [|y a]; [simpl in Ha; lia | reflexivity].
Qed.

End SlidingWindow.

Lemma push_and_trim_window log r :
  push_and_trim log r = slice_last capacity (log ++ [r])%list.
Proof.
  unfold push_and_trim. cbv zeta.
  destruct (Nat.ltb_spec capacity (length (log ++ [r])%list)) as [H|H].
  - reflexivity.
  - symmetry. apply slice_last_short, H.
Qed.

Lemma capacity_pos : 0 < capacity.
Proof. unfold capacity. apply Nat.lt_0_succ. Qed.

(** C3. One append by [logConversation] to a log of at most 1000 records
    leaves at most 1000 records: the log becomes the last 1000 records of
    the old log followed by the new record, so appending to a log of
    exactly 1000 records drops the oldest one. *)
Theorem logConversation_bounded env message response intent business st :
  JS.get intent "business" = inr business ->
  length (conversations st) <= capacity ->
  let r := mkRecord (uuid env) message response intent (log_time env)
             (JS.or_else business (JStr "general")) in
  let st' := snd (logConversation env message response intent st) in
  length (conversations st') <= capacity
  /\ conversations st' = slice_last capacity (conversations st ++ [r])%list
  /\ (length (conversations st) = capacity ->
      conversations st' = (tl (conversations st) ++ [r])%list
      /\ length (conversations st') = capacity).
Proof.
  intros Hb Hlen r st'.
  assert (Hst : conversations st'
                = slice_last capacity (conversations st ++ [r])%list).
  { subst st' r. unfold logConversation, bind. rewrite Hb. cbn.
    apply push_and_trim_window. }
  split; [rewrite Hst; apply slice_last_length |].
  split; [exact Hst |].
  intros Hfull. rewrite Hst.
  rewrite (slice_last_full capacity _ r capacity_pos Hfull).
  split; [reflexivity |].
  rewrite length_app. simpl length.
  destruct (conversations st) as [|x l]; simpl in *.
  - pose proof capacity_pos. lia.
  - lia.
Qed.

Lemma logConversation_bounded_witness :
  let r := mkRecord "00000000-0000-4000-8000-000000000000" "hello" (JStr "done")
             syntheticIntent 0 (JStr "both") in
  let st' := snd (logConversation (offline None) "hello" (JStr "done")
                    syntheticIntent full_store) in
  length (conversations st') <= capacity
  /\ conversations st' = slice_last capacity (conversations full_store ++ [r])%list
  /\ (length (conversations full_store) = capacity ->
      conversations st' = (tl (conversations full_store) ++ [r])%list
      /\ length (conversations st') = capacity).
Proof.
  apply (logConversation_bounded (offline None) "hello" (JStr "done")
           syntheticIntent (JStr "both") full_store).
  - reflexivity.
  - unfold full_store. cbn [conversations]. rewrite repeat_length. apply le_n.
Defined.

(** ** The steps of a dispatch *)

Lemma prints_nothing st : prints st st [].
Proof. split; [reflexivity | symmetry; apply app_nil_r]. Qed.

(** Classification never raises; it prints at most its own label. *)
Lemma analyzeIntent_returns env message context st :
  exists intent st' new,
    analyzeIntent env message context st = (inr intent, st')
    /\ prints st st' new
    /\ (new = [] \/ new = ["Intent analysis error:"]).
Proof.
  unfold analyzeIntent, try_catch, bind, axios_post, JSON_parse_content, bind.
  destruct (unconfigured (openai_key env)).
  { do 3 eexists. split; [reflexivity |]. split; [apply prints_nothing | now left]. }
  destruct (classification env) as [|r].
  { do 3 eexists. split; [reflexivity |]. split; [split; reflexivity | now right]. }
  destruct (validateStatus (status r)).
  2: { do 3 eexists. split; [reflexivity |].
       split; [split; reflexivity | now right]. }
  destruct (content r) as [e|v].
  { do 3 eexists. split; [reflexivity |]. split; [split; reflexivity | now right]. }
  destruct (content_json r) as [v'|].
  - do 3 eexists. split; [reflexivity |].
    split; [split; [reflexivity | symmetry; apply app_nil_r] | now left].
  - do 3 eexists. split; [reflexivity |].
    split; [split; reflexivity | now right].
Qed.

(** The prompt handler answers without raising and without printing. *)
Lemma handlePromptRequest_returns message context businessContext st :
  exists response,
    handlePromptRequest message context businessContext st = (inr response, st)
    /\ response <> JNull.
Proof.
  unfold handlePromptRequest, try_catch.
  destruct (includes (toLowerCase message) "image prompt"
            || includes (toLowerCase message) "high-end image"
            || includes (toLowerCase message) "generate").
  { eexists. split; [reflexivity | discriminate]. }
  destruct (includes (toLowerCase message) "content calendar"
            || includes (toLowerCase message) "weekly calendar").
  { eexists. split; [reflexivity | discriminate]. }
  eexists. split; [reflexivity | discriminate].
Qed.

(** The general handler never raises; when its [catch] clause runs, it
    prints its label and answers the apology. *)
Lemma handleGeneralRequest_returns env message context st :
  exists response st' new,
    handleGeneralRequest env message context st = (inr response, st')
    /\ prints st st' new
    /\ (new = []
        \/ new = ["General request error:"] /\ response = JStr general_apology).
Proof.
  unfold handleGeneralRequest, try_catch, bind, axios_post.
  destruct (unconfigured (openai_key env)).
  { do 3 eexists. split; [reflexivity |]. split; [apply prints_nothing | now left]. }
  destruct (completion env) as [|r].
  { do 3 eexists. split; [reflexivity |].
    split; [split; reflexivity | right; split; reflexivity]. }
  destruct (validateStatus (status r)).
  2: { do 3 eexists. split; [reflexivity |].
       split; [split; reflexivity | right; split; reflexivity]. }
  destruct (content r) as [e|v].
  - do 3 eexists. split; [reflexivity |].
    split; [split; reflexivity | right; split; reflexivity].
  - do 3 eexists. split; [reflexivity |].
    split; [split; [reflexivity | symmetry; apply app_nil_r] | now left].
Qed.

(** No capability raises past its own boundary. *)
Lemma invoke_returns env category intent rq st :
  exists response st' new,
    invoke env category intent rq st = (inr response, st')
    /\ prints st st' new
    /\ (new = []
        \/ new = ["General request error:"] /\ response = JStr general_apology).
Proof.
  assert (Hfixed : forall text,
             exists response st' new,
               ret (JStr text) st = (inr response, st')
               /\ prints st st' new
               /\ (new = []
                   \/ new = ["General request error:"]
                      /\ response = JStr general_apology)).
  { intros text. do 3 eexists. split; [reflexivity |].
    split; [apply prints_nothing | now left]. }
  unfold invoke.
  destruct category; try apply handleGeneralRequest_returns.
  repeat match goal with
         | |- context [if ?b then _ else _] => destruct b; [apply Hfixed |]
         end.
  destruct (_ || _).
  - destruct (handlePromptRequest_returns (message rq) (context rq)
                (businessContext rq) st) as (response & -> & _).
    do 3 eexists. split; [reflexivity |].
    split; [apply prints_nothing | now left].
  - apply handleGeneralRequest_returns.
Qed.

Lemma get_defined v k x :
  JS.get v k = inr x -> forall k', exists y, JS.get v k' = inr y.
Proof.
  destruct v; simpl; intros H k'; try discriminate; eexists; reflexivity.
Qed.

Lemma response_text_cases response :
  (response = JNull /\ response_text response = inl TypeError)
  \/ (response <> JNull /\ exists text, response_text response = inr text).
Proof.
  destruct response; simpl;
    try (right; split; [discriminate | eexists; reflexivity]).
  left. split; reflexivity.
Qed.

Lemma optional_field_defined response k :
  exists v, optional_field response k = inr v.
Proof.
  unfold optional_field.
  destruct response as [| |b|q|s|items|fields]; simpl;
    try (eexists; reflexivity).
  - destruct b; eexists; reflexivity.
  - destruct (negb (Qeq_bool q 0)); eexists; reflexivity.
  - destruct (negb (s =? "")); eexists; reflexivity.
  - destruct (JS.truthy (JS.lookup k fields)); eexists; reflexivity.
Qed.

Lemma optional_field_of_text s k : optional_field (JStr s) k = inr JUndefined.
Proof. unfold optional_field. simpl. destruct (negb (s =? "")); reflexivity. Qed.

Lemma handleChatMessage_cases env rq st :
  Dispatch env rq st (fst (handleChatMessage env rq st))
    (snd (handleChatMessage env rq st)).
Proof.
  destruct (analyzeIntent_returns env (message rq) (context rq) st)
    as (intent & st1 & new1 & Hai & Hp1 & Hn1).
  unfold handleChatMessage, chat_steps, bind. rewrite Hai. cbv beta iota.
  destruct (JS.get intent "category") as [e|category] eqn:Hcat.
  { assert (e = TypeError) by (destruct intent; simpl in Hcat; congruence).
    subst e. simpl. eapply NoIntent; eassumption. }
  cbn [lift ret].
  destruct (invoke_returns env category intent rq st1)
    as (response & st2 & new2 & Hinv & Hp2 & Hn2).
  rewrite Hinv. cbv beta iota.
  destruct (get_defined _ _ _ Hcat "business") as (business & Hbus).
  unfold logConversation, bind. rewrite Hbus. cbn [lift ret].
  destruct (response_text_cases response) as [[-> Ht] | [Hnn (text & Ht)]].
  - rewrite Ht. simpl.
    eapply NullResponse; try eassumption.
    destruct Hn2 as [-> | [_ Habs]]; [reflexivity | discriminate].
  - rewrite Ht. cbn [lift ret].
    destruct (optional_field_defined response "prompts") as (p & Hp).
    destruct (optional_field_defined response "calendar") as (c & Hc).
    destruct (optional_field_defined response "caption") as (cap & Hcap).
    rewrite Hp, Hc, Hcap. simpl.
    eapply Answered; eassumption.
Qed.

(** ** Capability failures *)

Lemma handleGeneralRequest_recovers env message context st :
  unconfigured (openai_key env) = false ->
  completion_fails (completion env) = true ->
  handleGeneralRequest env message context st
  = (inr (JStr general_apology),
     after_failed_call completion_request "General request error:" st).
Proof.
  intros Hkey Hfail.
  unfold handleGeneralRequest, try_catch, bind, axios_post. rewrite Hkey.
  destruct (completion env) as [|r]; [reflexivity |].
  cbn in Hfail.
  destruct (validateStatus (status r)); [| reflexivity].
  destruct (content r) as [e|v]; [reflexivity | discriminate].
Qed.

Lemma invoke_general env category intent rq st :
  general_category category = true ->
  invoke env category intent rq st
  = handleGeneralRequest env (message rq) (context rq) st.
Proof.
  intros Hgen. unfold invoke.
  destruct category as [| | | |c| |]; try reflexivity.
  unfold general_category in Hgen. apply negb_true_iff in Hgen.
  cbn [existsb] in Hgen.
  repeat (apply orb_false_iff in Hgen; destruct Hgen as [?E Hgen]).
  rewrite E, E0, E1, E2, E3, E4, E5, E6, E7, E8. reflexivity.
Qed.

(** C6. When the capability a dispatch invokes fails, the failure is
    recovered inside the capability. The one operation of a capability
    that can raise is the completion request of the general capability:
    with a credential configured, whenever the Intent is routed to the
    general capability and the completion request fails (transport error,
    status outside 2xx, or a body on which reading
    [choices[0].message.content] raises), the error is printed, the apology text is the response, the exchange
    is appended to the log, and the envelope reports success true. *)
Theorem capability_failure_recovered env rq st intent st1 category :
  unconfigured (openai_key env) = false ->
  analyzeIntent env (message rq) (context rq) st = (inr intent, st1) ->
  JS.get intent "category" = inr category ->
  general_category category = true ->
  completion_fails (completion env) = true ->
  exists business,
    JS.get intent "business" = inr business
    /\ handleChatMessage env rq st
       = (ChatOk (JStr general_apology) JUndefined JUndefined JUndefined
            category (reply_time env),
          logged env rq (JStr general_apology) intent business
            (after_failed_call completion_request "General request error:" st1))
    /\ success (fst (handleChatMessage env rq st)) = true.
Proof.
  intros Hkey Hai Hcat Hgen Hfail.
  destruct (get_defined _ _ _ Hcat "business") as (business & Hbus).
  exists business. split; [exact Hbus |].
  assert (Hrun : handleChatMessage env rq st
                 = (ChatOk (JStr general_apology) JUndefined JUndefined JUndefined
                      category (reply_time env),
                    logged env rq (JStr general_apology) intent business
                      (after_failed_call completion_request
                         "General request error:" st1))).
  { unfold handleChatMessage, chat_steps, bind. rewrite Hai. cbv beta iota.
    rewrite Hcat. cbn [lift ret].
    rewrite (invoke_general env category intent rq st1 Hgen).
    rewrite (handleGeneralRequest_recovers env _ _ st1 Hkey Hfail).
    cbv beta iota. unfold logConversation, bind. rewrite Hbus. cbn [lift ret].
    cbn [response_text JS.typeof_object].
    rewrite !optional_field_of_text. reflexivity. }
  split; [exact Hrun | rewrite Hrun; reflexivity].
Qed.

Lemma capability_failure_recovered_witness :
  exists business,
    JS.get syntheticIntent "business" = inr business
    /\ handleChatMessage (offline live_key) (mkChat "hello" JUndefined None)
         empty_store
       = (ChatOk (JStr general_apology) JUndefined JUndefined JUndefined
            (JStr "general") (reply_time (offline live_key)),
          logged (offline live_key) (mkChat "hello" JUndefined None)
            (JStr general_apology) syntheticIntent business
            (after_failed_call completion_request "General request error:"
               (after_failed_call classification_request
                  "Intent analysis error:" empty_store)))
    /\ success (fst (handleChatMessage (offline live_key)
                       (mkChat "hello" JUndefined None) empty_store)) = true.
Proof.
  apply (capability_failure_recovered (offline live_key)
           (mkChat "hello" JUndefined None) empty_store syntheticIntent
           (after_failed_call classification_request "Intent analysis error:"
              empty_store) (JStr "general"));
    reflexivity.
Defined.

(** ** The error path of the dispatcher *)

(** A dispatch that fails either appended nothing, or appended the record
    of a [null] response before it failed. *)
Lemma dispatch_failure_cases env rq st :
  success (fst (handleChatMessage env rq st)) = false ->
  conversations (snd (handleChatMessage env rq st)) = conversations st
  \/ exists r,
       rec_response r = JNull
       /\ conversations (snd (handleChatMessage env rq st))
          = push_and_trim (conversations st) r.
Proof.
  intros Hfail.
  pose proof (handleChatMessage_cases env rq st) as D.
  destruct (handleChatMessage env rq st) as [sent st']. simpl in *.
  destruct D as
    [ intent st1 new1 _ [Hc1 _] _ _
    | intent st1 new1 category st2 new2 business _ [Hc1 _] _ _ _ _ [Hc2 _] _
    | ].
  - left. exact Hc1.
  - right. eexists. split; [| simpl; rewrite Hc2, Hc1; reflexivity].
    reflexivity.
  - discriminate.
Qed.

(** C4, at the failing input. The service classifies the message as
    general and then completes with [content: null]: the record is
    appended, the normalisation of the [null] response raises, and the
    failure envelope is sent with the log one record longer. *)
Theorem null_response_logged_before_failure :
  fst (handleChatMessage null_completion_env (mkChat "hello" JUndefined None)
         empty_store) = failure_envelope
  /\ conversations
       (snd (handleChatMessage null_completion_env
               (mkChat "hello" JUndefined None) empty_store))
     = [ mkRecord "id" "hello" JNull
           (mkIntent "general" (9 # 10) "general_assistance" "both" "medium")
           0 (JStr "both") ]
  /\ conversations empty_store = [].
Proof. repeat split. Qed.

(** ** Content generation *)

Lemma prefix_append b post : String.prefix b (b ++ post) = true.
Proof.
  induction b as [|c b IH]; simpl.
  - destruct post; reflexivity.
  - destruct (ascii_dec c c) as [_|N]; [exact IH | now elim N].
Qed.

Lemma includes_prefix s sub : String.prefix sub s = true -> includes s sub = true.
Proof. intros H. destruct s; cbn [includes]; rewrite H; reflexivity. Qed.

Lemma includes_append pre b post : includes (pre ++ b ++ post) b = true.
Proof.
  induction pre as [|c pre IH].
  - apply includes_prefix. exact (prefix_append b post).
  - simpl append. cbn [includes]. rewrite IH. apply orb_true_r.
Qed.

Lemma includes_append_end pre b : includes (pre ++ b) b = true.
Proof.
  pose proof (includes_append pre b "") as H.
  assert (E : forall x, x ++ "" = x)
    by (induction x; simpl; congruence).
  now rewrite E in H.
Qed.

Lemma or_default_given b d : b <> "" -> or_default (Some b) d = b.
Proof.
  intros H. unfold or_default. destruct (String.eqb_spec b ""); congruence.
Qed.

(** C5, as stated, fails: the message contains the word generate, so the
    first branch answers the five image prompts and no calendar. *)
Lemma generate_shadows_calendar :
  fst (handlePromptRequest "generate a content calendar" JUndefined
         (Some "Acme") empty_store)
  = inr (JObj [ ("response",
                 JStr "Here are 5 professional high-end image prompts for Acme:");
                ("prompts", JArr (billyGeneTemplates (Some "Acme")));
                ("promptType", JStr "high-end-image") ])
  /\ ~ has_week_calendar "Acme"
        (JObj [ ("response",
                 JStr "Here are 5 professional high-end image prompts for Acme:");
                ("prompts", JArr (billyGeneTemplates (Some "Acme")));
                ("promptType", JStr "high-end-image") ]).
Proof.
  split; [reflexivity |].
  intros (entries & H & _). discriminate H.
Qed.

(** C5, amended. For a message that names a content calendar or a weekly
    calendar and none of image prompt, high-end image and generate, and a
    non-empty business context, [handlePromptRequest] returns a calendar of
    exactly five entries, Monday to Friday, each with a non-empty post idea
    that contains the business context. *)
Theorem handlePromptRequest_calendar message context b st :
  b <> "" ->
  asks_for_image_prompts message = false ->
  asks_for_calendar message = true ->
  exists result,
    handlePromptRequest message context (Some b) st = (inr result, st)
    /\ has_week_calendar b result.
Proof.
  intros Hb Himg Hcal.
  unfold asks_for_image_prompts in Himg. unfold asks_for_calendar in Hcal.
  unfold handlePromptRequest, try_catch. rewrite Himg, Hcal.
  eexists. split; [reflexivity |].
  eexists. split; [reflexivity |]. split; [reflexivity |].
  unfold contentThemes, week. rewrite !(or_default_given b _ Hb).
  repeat constructor;
    (eexists; split; [reflexivity | split; [discriminate |]]);
    first [ apply includes_append_end | apply includes_append ].
Qed.

Lemma handlePromptRequest_calendar_witness :
  exists result,
    handlePromptRequest "create a content calendar" JUndefined (Some "Acme")
      empty_store = (inr result, empty_store)
    /\ has_week_calendar "Acme" result.
Proof.
  apply (handlePromptRequest_calendar "create a content calendar" JUndefined
           "Acme" empty_store).
  - discriminate.
  - reflexivity.
  - reflexivity.
Defined.

(** ** End to end, with no classifier configured *)

(** C8. With no credential configured, the message "I need to schedule a
    call" is classified as calendar (schedule is looked for before call),
    and the dispatch answers with success true, intent calendar and the
    text of [CalendarAssistant.handleRequest]. *)
Theorem schedule_a_call_is_calendar env ctx bctx st :
  unconfigured (openai_key env) = true ->
  let rq := mkChat "I need to schedule a call" ctx bctx in
  fst (analyzeIntent env (message rq) ctx st)
  = inr (mkIntent "calendar" (7 # 10) "calendar_management" "both" "medium")
  /\ fst (handleChatMessage env rq st)
     = ChatOk
         (JStr "I can help you schedule appointments, make reservations, and manage your calendar across both businesses. What would you like me to schedule?")
         JUndefined JUndefined JUndefined (JStr "calendar") (reply_time env)
  /\ forall intent,
       fst (CalendarAssistant.handleRequest intent (message rq) st)
       = inr (JStr "I can help you schedule appointments, make reservations, and manage your calendar across both businesses. What would you like me to schedule?").
Proof.
  intros H rq. subst rq. cbn [message].
  split; [| split].
  - rewrite analyzeIntent_keyword_branch by exact H. reflexivity.
  - unfold handleChatMessage, chat_steps, bind. cbn [message context].
    rewrite analyzeIntent_keyword_branch by exact H. reflexivity.
  - reflexivity.
Qed.

Lemma schedule_a_call_is_calendar_witness :
  fst (analyzeIntent (offline None) "I need to schedule a call" JUndefined
         empty_store)
  = inr (mkIntent "calendar" (7 # 10) "calendar_management" "both" "medium")
  /\ fst (handleChatMessage (offline None)
            (mkChat "I need to schedule a call" JUndefined None) empty_store)
     = ChatOk
         (JStr "I can help you schedule appointments, make reservations, and manage your calendar across both businesses. What would you like me to schedule?")
         JUndefined JUndefined JUndefined (JStr "calendar") 0
  /\ forall intent,
       fst (CalendarAssistant.handleRequest intent "I need to schedule a call"
              empty_store)
       = inr (JStr "I can help you schedule appointments, make reservations, and manage your calendar across both businesses. What would you like me to schedule?").
Proof.
  apply (schedule_a_call_is_calendar (offline None) JUndefined None empty_store).
  reflexivity.
Defined.

(** C9. With no credential configured, the empty message raises nothing:
    it is classified as general and the dispatch answers with success
    true and the text [handleGeneralRequest] gives without a credential. *)
Theorem empty_message_is_general env ctx bctx st :
  unconfigured (openai_key env) = true ->
  let rq := mkChat "" ctx bctx in
  fst (analyzeIntent env "" ctx st)
  = inr (mkIntent "general" (6 # 10) "general_assistance" "both" "medium")
  /\ fst (handleGeneralRequest env "" ctx st)
     = inr (JStr (unconfigured_text ""))
  /\ fst (handleChatMessage env rq st)
     = ChatOk (JStr (unconfigured_text "")) JUndefined JUndefined JUndefined
         (JStr "general") (reply_time env)
  /\ success (fst (handleChatMessage env rq st)) = true.
Proof.
  intros H rq. subst rq.
  assert (Hchat : fst (handleChatMessage env (mkChat "" ctx bctx) st)
                  = ChatOk (JStr (unconfigured_text "")) JUndefined JUndefined
                      JUndefined (JStr "general") (reply_time env)).
  { unfold handleChatMessage, chat_steps, bind. cbn [message context].
    rewrite analyzeIntent_keyword_branch by exact H.
    cbn [keywordIntent lift ret JS.get JS.lookup mkIntent].
    unfold invoke, handleGeneralRequest. simpl. rewrite H. reflexivity. }
  split; [| split; [| split]].
  - rewrite analyzeIntent_keyword_branch by exact H. reflexivity.
  - unfold handleGeneralRequest. rewrite H. reflexivity.
  - exact Hchat.
  - rewrite Hchat. reflexivity.
Qed.

Lemma empty_message_is_general_witness :
  fst (analyzeIntent (offline (Some "test_key_placeholder")) "" JUndefined
         empty_store)
  = inr (mkIntent "general" (6 # 10) "general_assistance" "both" "medium")
  /\ fst (handleGeneralRequest (offline (Some "test_key_placeholder")) ""
            JUndefined empty_store)
     = inr (JStr (unconfigured_text ""))
  /\ fst (handleChatMessage (offline (Some "test_key_placeholder"))
            (mkChat "" JUndefined None) empty_store)
     = ChatOk (JStr (unconfigured_text "")) JUndefined JUndefined JUndefined
         (JStr "general") 0
  /\ success (fst (handleChatMessage (offline (Some "test_key_placeholder"))
                     (mkChat "" JUndefined None) empty_store)) = true.
Proof.
  apply (empty_message_is_general (offline (Some "test_key_placeholder"))
           JUndefined None empty_store).
  reflexivity.
Defined.

(** * Further properties *)

(** ** The .env file *)

Import EnvFile.

Lemma split_not_nil s : split s <> [].
Proof.
  induction s as [|c s IH]; simpl.
  - discriminate.
  - destruct (Ascii.eqb c newline); [discriminate |].
    destruct (split s); [contradiction | discriminate].
Qed.

Lemma join_cons line rest :
  rest <> [] -> join (line :: rest) = line ++ String newline (join rest).
Proof. destruct rest; [contradiction | reflexivity]. Qed.

Lemma join_split s : join (split s) = s.
Proof.
  induction s as [|c s IH]; [reflexivity |].
  simpl split. destruct (Ascii.eqb_spec c newline) as [-> | N].
  - rewrite join_cons by apply split_not_nil. rewrite IH. reflexivity.
  - pose proof (split_not_nil s) as Hs.
    destruct (split s) as [|line rest]; [contradiction |].
    destruct rest as [|l2 rest].
    + simpl in *. congruence.
    + rewrite join_cons by discriminate. rewrite join_cons in IH by discriminate.
      rewrite <- IH. reflexivity.
Qed.

Lemma has_char_app c a b : has_char c (a ++ b) = has_char c a || has_char c b.
Proof.
  induction a as [|x a IH]; simpl; [reflexivity |].
  rewrite IH. apply orb_assoc.
Qed.

Lemma split_one_line s : one_line s -> split s = [s].
Proof.
  unfold one_line. induction s as [|c s IH]; simpl; intros H; [reflexivity |].
  apply orb_false_iff in H. destruct H as [Hc Hs].
  rewrite Hc, (IH Hs). reflexivity.
Qed.

Lemma split_app_newline a b :
  one_line a -> split (a ++ String newline b) = a :: split b.
Proof.
  unfold one_line. induction a as [|c a IH]; simpl; intros H.
  - reflexivity.
  - apply orb_false_iff in H. destruct H as [Hc Ha].
    rewrite Hc, (IH Ha). reflexivity.
Qed.

Lemma split_join lines :
  lines <> [] -> Forall one_line lines -> split (join lines) = lines.
Proof.
  induction lines as [|line rest IH]; intros Hne Hall; [contradiction |].
  inversion Hall as [|? ? Hline Hrest]; subst.
  destruct rest as [|l2 rest].
  - simpl. apply split_one_line, Hline.
  - rewrite join_cons by discriminate.
    rewrite split_app_newline by exact Hline.
    rewrite IH; [reflexivity | discriminate | exact Hrest].
Qed.

Lemma split_lines_one_line s : Forall one_line (split s).
Proof.
  induction s as [|c s IH]; simpl.
  - repeat constructor.
  - destruct (Ascii.eqb c newline) eqn:Hc.
    + constructor; [reflexivity | exact IH].
    + destruct (split s) as [|line rest]; [repeat constructor; simpl;
        unfold one_line; simpl; rewrite Hc; reflexivity |].
      inversion IH as [|? ? Hline Hrest]; subst.
      constructor; [| exact Hrest].
      unfold one_line in *. simpl. rewrite Hc, Hline. reflexivity.
Qed.

Lemma entry_one_line key value :
  one_line key -> one_line value -> one_line (entry key value).
Proof.
  unfold one_line, entry. intros Hk Hv.
  rewrite !has_char_app, Hk, Hv. reflexivity.
Qed.

Lemma string_app_assoc (a b c : string) : (a ++ b) ++ c = a ++ b ++ c.
Proof. induction a as [|x a IH]; simpl; [reflexivity | now rewrite IH]. Qed.

Lemma is_entry_of_entry key value : is_entry_of key (entry key value) = true.
Proof.
  unfold is_entry_of, entry. rewrite <- string_app_assoc. apply prefix_append.
Qed.

Lemma rewritten_cons key value line rest :
  rewritten key value (line :: rest)
  = if is_entry_of key line then entry key value :: rest
    else line :: rewritten key value rest.
Proof.
  unfold rewritten. simpl.
  destruct (is_entry_of key line); [reflexivity |].
  destruct (replace_first key value rest) as [rest' found].
  destruct found; reflexivity.
Qed.

Lemma rewritten_nil key value : rewritten key value [] = [entry key value].
Proof. reflexivity. Qed.

Lemma updated_rewritten envContent key value :
  updated envContent key value = join (rewritten key value (split envContent)).
Proof.
  unfold updated, rewritten.
  destruct (replace_first key value (split envContent)) as [lines found].
  reflexivity.
Qed.

Lemma rewritten_not_nil key value lines : rewritten key value lines <> [].
Proof.
  destruct lines as [|line rest]; [discriminate |].
  rewrite rewritten_cons. destruct (is_entry_of key line); discriminate.
Qed.

Lemma rewritten_one_line key value lines :
  one_line key -> one_line value -> Forall one_line lines ->
  Forall one_line (rewritten key value lines).
Proof.
  intros Hk Hv. induction lines as [|line rest IH]; intros Hall.
  - repeat constructor. apply entry_one_line; assumption.
  - inversion Hall as [|? ? Hline Hrest]; subst.
    rewrite rewritten_cons. destruct (is_entry_of key line).
    + constructor; [apply entry_one_line; assumption | exact Hrest].
    + constructor; [exact Hline | apply IH, Hrest].
Qed.

Lemma split_updated envContent key value :
  one_line key -> one_line value ->
  split (updated envContent key value) = rewritten key value (split envContent).
Proof.
  intros Hk Hv. rewrite updated_rewritten. apply split_join.
  - apply rewritten_not_nil.
  - apply rewritten_one_line; auto using split_lines_one_line.
Qed.


Lemma is_entry_of_empty key : is_entry_of key "" = false.
Proof. unfold is_entry_of. destruct key; reflexivity. Qed.

Lemma find_rewritten key value lines :
  find (is_entry_of key) (rewritten key value lines) = Some (entry key value).
Proof.
  induction lines as [|line rest IH].
  - rewrite rewritten_nil. simpl. rewrite is_entry_of_entry. reflexivity.
  - rewrite rewritten_cons. destruct (is_entry_of key line) eqn:E; simpl.
    + rewrite is_entry_of_entry. reflexivity.
    + rewrite E. exact IH.
Qed.

Lemma rewritten_fixed key value lines :
  rewritten key value (rewritten key value lines) = rewritten key value lines.
Proof.
  induction lines as [|line rest IH].
  - rewrite rewritten_nil, rewritten_cons, is_entry_of_entry. reflexivity.
  - rewrite rewritten_cons. destruct (is_entry_of key line) eqn:E.
    + rewrite rewritten_cons, is_entry_of_entry. reflexivity.
    + rewrite rewritten_cons, E, IH. reflexivity.
Qed.

(** The loop and the push change one place of the lines. *)
Lemma rewritten_places key value lines :
  (exists pre line post,
      lines = (pre ++ line :: post)%list
      /\ Forall (fun l => is_entry_of key l = false) pre
      /\ is_entry_of key line = true
      /\ rewritten key value lines = (pre ++ entry key value :: post)%list)
  \/ (Forall (fun l => is_entry_of key l = false) lines
      /\ rewritten key value lines = (lines ++ [entry key value])%list).
Proof.
  induction lines as [|line rest IH].
  - right. split; [constructor | reflexivity].
  - rewrite rewritten_cons. destruct (is_entry_of key line) eqn:E.
    + left. exists [], line, rest. repeat split; [constructor | exact E].
    + destruct IH as [(pre & l & post & -> & Hpre & Hl & ->) | [Hall ->]].
      * left. exists (line :: pre), l, post.
        repeat split; [constructor; assumption | exact Hl].
      * right. split; [constructor; assumption | reflexivity].
Qed.

Lemma prefix_cons a s b t :
  String.prefix (String a s) (String b t)
  = if Ascii.eqb a b then String.prefix s t else false.
Proof.
  simpl. destruct (ascii_dec a b) as [-> | N].
  - rewrite Ascii.eqb_refl. reflexivity.
  - apply Ascii.eqb_neq in N. rewrite N. reflexivity.
Qed.

(** Two plain names that head the same line are the same name. *)
Lemma plain_keys_disjoint key other :
  has_char "="%char key = false -> has_char "="%char other = false ->
  key <> other ->
  forall line, is_entry_of key line = true -> is_entry_of other line = false.
Proof.
  unfold is_entry_of.
  revert other. induction key as [|c key IH]; intros other Hk Ho Hne line.
  - destruct other as [|c' other]; [congruence |].
    destruct line as [|x line]; [discriminate |].
    cbn [append]. rewrite !prefix_cons.
    destruct (Ascii.eqb_spec "="%char x) as [<- | N]; [| discriminate].
    intros _. cbn [has_char] in Ho. apply orb_false_iff in Ho.
    destruct Ho as [Ho _]. rewrite Ho. reflexivity.
  - destruct line as [|x line]; [discriminate |].
    cbn [append]. rewrite prefix_cons.
    destruct (Ascii.eqb_spec c x) as [<- | N]; [| discriminate].
    intros Hp. cbn [has_char] in Hk. apply orb_false_iff in Hk.
    destruct Hk as [Hc Hk].
    destruct other as [|c' other]; cbn [append]; rewrite prefix_cons.
    + rewrite Ascii.eqb_sym, Hc. reflexivity.
    + destruct (Ascii.eqb_spec c' c) as [-> | N']; [| reflexivity].
      cbn [has_char] in Ho. apply orb_false_iff in Ho. destruct Ho as [_ Ho].
      apply (IH other); [exact Hk | exact Ho | congruence | exact Hp].
Qed.

Lemma find_other_rewritten key other value lines :
  plain_key key -> plain_key other -> key <> other ->
  find (is_entry_of other) (rewritten key value lines)
  = find (is_entry_of other) lines.
Proof.
  intros [Hk _] [Ho _] Hne.
  pose proof (plain_keys_disjoint key other Hk Ho Hne) as Hd.
  induction lines as [|line rest IH].
  - rewrite rewritten_nil. simpl.
    rewrite (Hd _ (is_entry_of_entry key value)). reflexivity.
  - rewrite rewritten_cons. destruct (is_entry_of key line) eqn:E; simpl.
    + rewrite (Hd _ (is_entry_of_entry key value)), (Hd _ E). reflexivity.
    + rewrite IH. reflexivity.
Qed.

Lemma getenv_other key other value vars :
  key <> other -> getenv other ((key, value) :: vars) = getenv other vars.
Proof.
  intros Hne. simpl. destruct (String.eqb_spec key other); [contradiction | reflexivity].
Qed.

Lemma env_text_updated key value h :
  writable h = true ->
  env_text (snd (updateEnvFile key value h)) = updated (env_text h) key value.
Proof. intros Hw. unfold updateEnvFile. rewrite Hw. reflexivity. Qed.

Lemma split_after_update key value h :
  writable h = true -> one_line key -> one_line value ->
  split (env_text (snd (updateEnvFile key value h)))
  = rewritten key value (split (env_text h)).
Proof.
  intros Hw Hk Hv. rewrite env_text_updated by exact Hw.
  apply split_updated; assumption.
Qed.

(** X1. On a host where the [.env] file is missing or empty, a successful
    [updateEnvFile] writes an empty first line followed by the entry:
    the text of the file is a newline and then [key=value]. *)
Theorem updateEnvFile_fresh_file key value h :
  writable h = true ->
  env_file h = None \/ env_file h = Some "" ->
  env_file (snd (updateEnvFile key value h))
  = Some (String newline (entry key value)).
Proof.
  intros Hw Hfile. unfold updateEnvFile. rewrite Hw. cbn [snd env_file].
  assert (Htext : env_text h = "")
    by (unfold env_text; destruct Hfile as [-> | ->]; reflexivity).
  rewrite Htext, updated_rewritten. simpl split.
  rewrite rewritten_cons, is_entry_of_empty, rewritten_nil. reflexivity.
Qed.

Lemma updateEnvFile_fresh_file_witness :
  env_file (snd (updateEnvFile "PORT" "3003" (mkHost None true [] [])))
  = Some (String newline (entry "PORT" "3003")).
Proof.
  apply (updateEnvFile_fresh_file "PORT" "3003" (mkHost None true [] [])).
  - reflexivity.
  - left. reflexivity.
Defined.

(** X2. After a successful [updateEnvFile] with a key and a value that hold
    no newline, the entry can be read back from the file: the first line
    that starts with [key=] is [key=value]. *)
Theorem updateEnvFile_read_back key value h :
  writable h = true -> one_line key -> one_line value ->
  fst (updateEnvFile key value h) = Returns
  /\ line_of key (env_text (snd (updateEnvFile key value h)))
     = Some (entry key value).
Proof.
  intros Hw Hk Hv. split.
  - unfold updateEnvFile. rewrite Hw. reflexivity.
  - unfold line_of. rewrite split_after_update by assumption.
    apply find_rewritten.
Qed.

Lemma updateEnvFile_read_back_witness :
  fst (updateEnvFile "OPENAI_API_KEY" "sk-live-0123456789" sample_host) = Returns
  /\ line_of "OPENAI_API_KEY"
       (env_text (snd (updateEnvFile "OPENAI_API_KEY" "sk-live-0123456789"
                         sample_host)))
     = Some (entry "OPENAI_API_KEY" "sk-live-0123456789").
Proof.
  apply (updateEnvFile_read_back "OPENAI_API_KEY" "sk-live-0123456789"
           sample_host); reflexivity.
Defined.

(** X3. A successful [updateEnvFile] with a key and a value that hold no
    newline changes exactly one place of the file. When a line starts
    with [key=], the first such line is replaced where it stands by
    [key=value] and every other line, before and after it, is kept as and
    where it was (later lines that start with [key=] included). When no
    line starts with [key=], all lines are kept and [key=value] is added
    as the last line. *)
Theorem updateEnvFile_keeps_other_lines key value h :
  writable h = true -> one_line key -> one_line value ->
  let before := split (env_text h) in
  let after := split (env_text (snd (updateEnvFile key value h))) in
  (exists pre line post,
      before = (pre ++ line :: post)%list
      /\ Forall (fun l => is_entry_of key l = false) pre
      /\ is_entry_of key line = true
      /\ after = (pre ++ entry key value :: post)%list)
  \/ (Forall (fun l => is_entry_of key l = false) before
      /\ after = (before ++ [entry key value])%list).
Proof.
  intros Hw Hk Hv before after. subst before after.
  rewrite split_after_update by assumption.
  apply rewritten_places.
Qed.

Lemma updateEnvFile_keeps_other_lines_witness :
  let before := split (env_text sample_host) in
  let after := split (env_text (snd (updateEnvFile "PORT" "8080" sample_host))) in
  (exists pre line post,
      before = (pre ++ line :: post)%list
      /\ Forall (fun l => is_entry_of "PORT" l = false) pre
      /\ is_entry_of "PORT" line = true
      /\ after = (pre ++ entry "PORT" "8080" :: post)%list)
  \/ (Forall (fun l => is_entry_of "PORT" l = false) before
      /\ after = (before ++ [entry "PORT" "8080"])%list).
Proof.
  apply (updateEnvFile_keeps_other_lines "PORT" "8080" sample_host); reflexivity.
Defined.

(** X4. [updateEnvFile] is idempotent on the file: with a key and a value
    that hold no newline, a second successful call with the same
    arguments leaves the text of the file as the first call wrote it. *)
Theorem updateEnvFile_idempotent key value h :
  writable h = true -> one_line key -> one_line value ->
  env_file (snd (updateEnvFile key value (snd (updateEnvFile key value h))))
  = env_file (snd (updateEnvFile key value h)).
Proof.
  intros Hw Hk Hv.
  assert (Hw' : writable (snd (updateEnvFile key value h)) = true)
    by (unfold updateEnvFile; rewrite Hw; reflexivity).
  assert (Hfile : forall g, writable g = true ->
            env_file (snd (updateEnvFile key value g))
            = Some (updated (env_text g) key value))
    by (intros g Hg; unfold updateEnvFile; rewrite Hg; reflexivity).
  rewrite (Hfile _ Hw'), (Hfile _ Hw). f_equal.
  rewrite env_text_updated by exact Hw.
  rewrite (updated_rewritten (updated _ _ _)), split_updated by assumption.
  rewrite rewritten_fixed. symmetry. apply updated_rewritten.
Qed.

Lemma updateEnvFile_idempotent_witness :
  env_file (snd (updateEnvFile "MCP_ENABLED" "true"
                   (snd (updateEnvFile "MCP_ENABLED" "true" sample_host))))
  = env_file (snd (updateEnvFile "MCP_ENABLED" "true" sample_host)).
Proof.
  apply (updateEnvFile_idempotent "MCP_ENABLED" "true" sample_host); reflexivity.
Defined.

(** X5. A successful [updateEnvFile] of one key does not disturb another:
    for two different names without [=] and newline and a value without
    newline, the line of the other key in the file and its variable in
    [process.env] are what they were. *)
Theorem updateEnvFile_other_key key other value h :
  writable h = true -> plain_key key -> plain_key other -> key <> other ->
  one_line value ->
  line_of other (env_text (snd (updateEnvFile key value h)))
  = line_of other (env_text h)
  /\ getenv other (process_env (snd (updateEnvFile key value h)))
     = getenv other (process_env h).
Proof.
  intros Hw Hk Ho Hne Hv. split.
  - unfold line_of. rewrite split_after_update; [| exact Hw | apply Hk | exact Hv].
    apply find_other_rewritten; assumption.
  - unfold updateEnvFile. rewrite Hw. apply getenv_other, Hne.
Qed.

Lemma updateEnvFile_other_key_witness :
  line_of "PORT"
    (env_text (snd (updateEnvFile "OPENAI_API_KEY" "sk-live-0123456789"
                      sample_host)))
  = line_of "PORT" (env_text sample_host)
  /\ getenv "PORT"
       (process_env (snd (updateEnvFile "OPENAI_API_KEY" "sk-live-0123456789"
                            sample_host)))
     = getenv "PORT" (process_env sample_host).
Proof.
  apply (updateEnvFile_other_key "OPENAI_API_KEY" "PORT" "sk-live-0123456789"
           sample_host);
    try reflexivity; try (split; reflexivity).
  discriminate.
Defined.


Lemma line_of_after_update key value h :
  writable h = true -> one_line key -> one_line value ->
  line_of key (env_text (snd (updateEnvFile key value h))) = Some (entry key value).
Proof.
  intros Hw Hk Hv. unfold line_of. rewrite split_after_update by assumption.
  apply find_rewritten.
Qed.

Lemma line_of_other_after_update key other value h :
  writable h = true -> plain_key key -> plain_key other -> key <> other ->
  one_line value ->
  line_of other (env_text (snd (updateEnvFile key value h)))
  = line_of other (env_text h).
Proof.
  intros Hw Hk Ho Hne Hv. unfold line_of.
  rewrite split_after_update; [| exact Hw | apply Hk | exact Hv].
  apply find_other_rewritten; assumption.
Qed.

Lemma updateEnvFile_outcome key value h :
  updateEnvFile key value h
  = if writable h
    then (Returns, snd (updateEnvFile key value h))
    else (Raises, snd (updateEnvFile key value h)).
Proof. unfold updateEnvFile. destruct (writable h); reflexivity. Qed.

Lemma updateEnvFile_writable key value h :
  writable (snd (updateEnvFile key value h)) = writable h.
Proof. unfold updateEnvFile. destruct (writable h); reflexivity. Qed.

(** ** The configuration routes *)

Lemma real_key_unconfigured key : real_key key = negb (unconfigured key).
Proof.
  unfold real_key, present, unconfigured. destruct key as [k|]; [| reflexivity].
  rewrite negb_orb. reflexivity.
Qed.

Lemma analyzeIntent_requests env message context st :
  requests (snd (analyzeIntent env message context st))
  = if unconfigured (openai_key env) then requests st
    else (requests st ++ [classification_request])%list.
Proof.
  unfold analyzeIntent, try_catch, bind, axios_post, JSON_parse_content, bind.
  destruct (unconfigured (openai_key env)); [reflexivity |].
  destruct (classification env) as [|r]; [reflexivity |].
  destruct (validateStatus (status r)); [| reflexivity].
  destruct (content r); [reflexivity |].
  destruct (content_json r); reflexivity.
Qed.



(** X7. An accepted key takes effect at once, unless it is the placeholder:
    after [updateOpenAIConfig] has written a key of at least ten
    characters, [getConfigStatus] reports openai as configured and
    [analyzeIntent] sends the classification request exactly when the key
    is not [test_key_placeholder]; with the placeholder the route still
    answers 200 and classification stays on the keywords. *)
Theorem updateOpenAIConfig_takes_effect k s answers message context st :
  10 <= String.length k -> writable (host s) = true ->
  let s' := snd (updateOpenAIConfig (Some k) s) in
  let effective := negb (k =? "test_key_placeholder") in
  sent_success (fst (updateOpenAIConfig (Some k) s)) = true
  /\ cfg_openai_key (config s') = Some k
  /\ path (sent_body (getConfigStatus (config s'))) ["status"; "openai"; "configured"]
     = inr (JBool effective)
  /\ requests (snd (analyzeIntent (env_of (config s') answers) message context st))
     = (if effective then (requests st ++ [classification_request])%list
        else requests st)
  /\ (effective = false ->
      fst (analyzeIntent (env_of (config s') answers) message context st)
      = inr (keywordIntent message)).
Proof.
  intros Hlen Hw s' effective. subst s' effective.
  unfold updateOpenAIConfig.
  assert (Hk : (k =? "") = false).
  { destruct (String.eqb_spec k "") as [-> | _]; [simpl in Hlen; lia | reflexivity]. }
  rewrite Hk. cbn [orb].
  destruct (Nat.ltb_spec (String.length k) 10) as [Hlt | _]; [lia |].
  rewrite updateEnvFile_outcome, Hw. cbn [fst snd config].
  set (cfg' := set_openai_key (Some k) (config s)).
  assert (Hkey : openai_key (env_of cfg' answers) = Some k) by reflexivity.
  split; [reflexivity | split; [reflexivity |]].
  assert (Hun : unconfigured (Some k) = (k =? "test_key_placeholder")).
  { unfold unconfigured. rewrite Hk. reflexivity. }
  split; [| split].
  - change (path (sent_body (getConfigStatus cfg')) ["status"; "openai"; "configured"])
      with (@inr Error JSValue (JBool (real_key (Some k)))).
    rewrite real_key_unconfigured, Hun. reflexivity.
  - rewrite analyzeIntent_requests, Hkey, Hun.
    destruct (k =? "test_key_placeholder"); reflexivity.
  - intros Heff. apply negb_false_iff in Heff.
    rewrite analyzeIntent_keyword_branch; [reflexivity |].
    rewrite Hkey, Hun. exact Heff.
Qed.

Lemma updateOpenAIConfig_takes_effect_witness :
  let s := mkServer blank_config sample_host in
  let s' := snd (updateOpenAIConfig (Some "test_key_placeholder") s) in
  let effective := negb ("test_key_placeholder" =? "test_key_placeholder") in
  sent_success (fst (updateOpenAIConfig (Some "test_key_placeholder") s)) = true
  /\ cfg_openai_key (config s') = Some "test_key_placeholder"
  /\ path (sent_body (getConfigStatus (config s'))) ["status"; "openai"; "configured"]
     = inr (JBool effective)
  /\ requests (snd (analyzeIntent (env_of (config s') (offline None))
                      "email Bob" JUndefined empty_store))
     = (if effective then (requests empty_store ++ [classification_request])%list
        else requests empty_store)
  /\ (effective = false ->
      fst (analyzeIntent (env_of (config s') (offline None)) "email Bob"
             JUndefined empty_store)
      = inr (keywordIntent "email Bob")).
Proof.
  apply (updateOpenAIConfig_takes_effect "test_key_placeholder"
           (mkServer blank_config sample_host) (offline None) "email Bob"
           JUndefined empty_store).
  - simpl. lia.
  - reflexivity.
Defined.

(** X8. An accepted key is stored in the configuration and in the file:
    when [updateOpenAIConfig] is given a key of at least ten characters
    that holds no newline and the file can be written, the configuration
    holds the key, the line of [OPENAI_API_KEY] in the [.env] file is
    [OPENAI_API_KEY=key], and the lines of the other variables are
    kept. *)
Theorem updateOpenAIConfig_persists k s other :
  10 <= String.length k -> one_line k -> writable (host s) = true ->
  plain_key other -> other <> "OPENAI_API_KEY" ->
  let s' := snd (updateOpenAIConfig (Some k) s) in
  cfg_openai_key (config s') = Some k
  /\ line_of "OPENAI_API_KEY" (env_text (host s'))
     = Some (entry "OPENAI_API_KEY" k)
  /\ line_of other (env_text (host s')) = line_of other (env_text (host s)).
Proof.
  intros Hlen Hline Hw Ho Hne s'. subst s'.
  unfold updateOpenAIConfig.
  assert (Hk : (k =? "") = false).
  { destruct (String.eqb_spec k "") as [-> | _]; [simpl in Hlen; lia | reflexivity]. }
  rewrite Hk. cbn [orb].
  destruct (Nat.ltb_spec (String.length k) 10) as [Hlt | _]; [lia |].
  rewrite updateEnvFile_outcome, Hw. cbn [snd config host set_openai_key cfg_openai_key].
  split; [reflexivity | split].
  - apply line_of_after_update; [exact Hw | reflexivity | exact Hline].
  - apply line_of_other_after_update;
      [exact Hw | split; reflexivity | exact Ho | congruence | exact Hline].
Qed.

Lemma updateOpenAIConfig_persists_witness :
  let s := mkServer blank_config sample_host in
  let s' := snd (updateOpenAIConfig (Some "sk-live-0123456789") s) in
  cfg_openai_key (config s') = Some "sk-live-0123456789"
  /\ line_of "OPENAI_API_KEY" (env_text (host s'))
     = Some (entry "OPENAI_API_KEY" "sk-live-0123456789")
  /\ line_of "PORT" (env_text (host s')) = line_of "PORT" (env_text (host s)).
Proof.
  apply (updateOpenAIConfig_persists "sk-live-0123456789"
           (mkServer blank_config sample_host) "PORT").
  - simpl. lia.
  - reflexivity.
  - reflexivity.
  - split; reflexivity.
  - discriminate.
Defined.

(** X9. [getConfigStatus] and the classifier agree on what configured
    means: under any configuration the status reports openai as
    configured exactly when [analyzeIntent] sends its request to the
    service, and as not configured exactly when it answers from the
    keywords without a request. *)
Theorem getConfigStatus_matches_classifier cfg answers message context st :
  exists configured,
    path (sent_body (getConfigStatus cfg)) ["status"; "openai"; "configured"]
    = inr (JBool configured)
    /\ path (sent_body (getConfigStatus cfg)) ["status"; "openai"; "status"]
       = inr (JStr (if configured then "connected" else "disconnected"))
    /\ requests (snd (analyzeIntent (env_of cfg answers) message context st))
       = (if configured then (requests st ++ [classification_request])%list
          else requests st)
    /\ (configured = false ->
        analyzeIntent (env_of cfg answers) message context st
        = (inr (keywordIntent message), st)).
Proof.
  exists (real_key (cfg_openai_key cfg)).
  split; [reflexivity | split; [reflexivity |]].
  rewrite real_key_unconfigured. split.
  - rewrite analyzeIntent_requests. cbn [env_of openai_key].
    destruct (unconfigured (cfg_openai_key cfg)); reflexivity.
  - intros H. apply negb_false_iff in H.
    apply analyzeIntent_keyword_branch. exact H.
Qed.

(** X10. When the address holds no newline, both variables can be read
    back from the [.env] file after a successful [updateMCPConfig]:
    [MCP_SERVER_URL] holds the given address, or [http://localhost:3001]
    when none or an empty one is given, and [MCP_ENABLED] holds [true] or
    [false] after the truth of [enabled]; the second write does not
    disturb the first, and the configuration is untouched. *)
Theorem updateMCPConfig_both_entries server_url enabled s :
  writable (host s) = true ->
  one_line (or_default server_url "http://localhost:3001") ->
  let s' := snd (updateMCPConfig server_url enabled s) in
  sent_success (fst (updateMCPConfig server_url enabled s)) = true
  /\ line_of "MCP_SERVER_URL" (env_text (host s'))
     = Some (entry "MCP_SERVER_URL" (or_default server_url "http://localhost:3001"))
  /\ line_of "MCP_ENABLED" (env_text (host s'))
     = Some (entry "MCP_ENABLED" (if JS.truthy enabled then "true" else "false"))
  /\ config s' = config s.
Proof.
  intros Hw Hurl s'. subst s'. unfold updateMCPConfig.
  set (url := or_default server_url "http://localhost:3001") in *.
  set (flag := if JS.truthy enabled then "true" else "false").
  assert (Hflag : one_line flag) by (subst flag; destruct (JS.truthy enabled); reflexivity).
  rewrite (updateEnvFile_outcome "MCP_SERVER_URL"), Hw.
  set (h1 := snd (updateEnvFile "MCP_SERVER_URL" url (host s))).
  assert (Hw1 : writable h1 = true)
    by (subst h1; rewrite updateEnvFile_writable; exact Hw).
  rewrite (updateEnvFile_outcome "MCP_ENABLED"), Hw1. cbn [fst snd host config].
  split; [reflexivity | split; [| split; [| reflexivity]]].
  - rewrite line_of_other_after_update;
      [| exact Hw1 | split; reflexivity | split; reflexivity | discriminate
       | exact Hflag].
    subst h1. apply line_of_after_update; [exact Hw | reflexivity | exact Hurl].
  - apply line_of_after_update; [exact Hw1 | reflexivity | exact Hflag].
Qed.

Lemma updateMCPConfig_both_entries_witness :
  let s := mkServer blank_config sample_host in
  let s' := snd (updateMCPConfig None (JBool true) s) in
  sent_success (fst (updateMCPConfig None (JBool true) s)) = true
  /\ line_of "MCP_SERVER_URL" (env_text (host s'))
     = Some (entry "MCP_SERVER_URL" (or_default None "http://localhost:3001"))
  /\ line_of "MCP_ENABLED" (env_text (host s'))
     = Some (entry "MCP_ENABLED" (if JS.truthy (JBool true) then "true" else "false"))
  /\ config s' = config s.
Proof.
  apply (updateMCPConfig_both_entries None (JBool true)
           (mkServer blank_config sample_host)); reflexivity.
Defined.


(** ** Voice input *)

(** X11. [processVoiceInput] never answers with success. With voice
    processing disabled it answers 503 and touches nothing. With voice
    processing enabled the transcribed message is dispatched as a chat
    message (the log and the sent requests are those of that dispatch),
    but the handler returns [undefined], reading [chatResponse.response]
    raises, and the route answers 500. *)
Theorem processVoiceInput_never_succeeds cfg env audioData format st :
  sent_success (fst (processVoiceInput cfg env audioData format st)) = false
  /\ (cfg_whispr_enabled cfg = false ->
      processVoiceInput cfg env audioData format st
      = (Json 503 (failure_body "Voice processing not configured"), st))
  /\ (cfg_whispr_enabled cfg = true ->
      fst (processVoiceInput cfg env audioData format st)
      = Json 500 (failure_body "Voice processing failed")
      /\ conversations (snd (processVoiceInput cfg env audioData format st))
         = conversations
             (snd (handleChatMessage env (voice_request audioData format) st))
      /\ requests (snd (processVoiceInput cfg env audioData format st))
         = requests
             (snd (handleChatMessage env (voice_request audioData format) st))).
Proof.
  unfold processVoiceInput, handleChatMessage_stub, handleChatMessage, bind.
  destruct (cfg_whispr_enabled cfg); cbn [negb].
  - destruct (chat_steps env (voice_request audioData format) st) as [[e|sent] st'];
      cbn; (split; [reflexivity | split; [discriminate |]]);
      intros _; repeat split.
  - split; [reflexivity | split; [reflexivity | discriminate]].
Qed.


(** ** Dispatch without a credential *)

Lemma prefix_split sub : forall s,
  String.prefix sub s = true -> exists post, s = sub ++ post.
Proof.
  induction sub as [|a sub IH]; intros s H.
  - exists s. reflexivity.
  - destruct s as [|b s]; [discriminate |].
    rewrite prefix_cons in H.
    destruct (Ascii.eqb_spec a b) as [<- | N]; [| discriminate].
    destruct (IH s H) as (post & ->). exists post. reflexivity.
Qed.

Lemma includes_split s sub :
  includes s sub = true -> exists pre post, s = pre ++ sub ++ post.
Proof.
  induction s as [|c s IH]; cbn [includes]; intros H.
  - rewrite orb_false_r in H. destruct (prefix_split _ _ H) as (post & ->).
    exists "", post. reflexivity.
  - apply orb_true_iff in H. destruct H as [H | H].
    + destruct (prefix_split _ _ H) as (post & ->). exists "", post. reflexivity.
    + destruct (IH H) as (pre & post & ->). exists (String c pre), post. reflexivity.
Qed.

(** A text that holds [a ++ b] holds [b]. *)
Lemma includes_weaken s a b : includes s (a ++ b) = true -> includes s b = true.
Proof.
  intros H. destruct (includes_split _ _ H) as (pre & post & ->).
  rewrite string_app_assoc, <- (string_app_assoc pre a).
  apply includes_append.
Qed.

Lemma no_calendar_branch lower :
  includes lower "calendar" = false ->
  includes lower "content calendar" || includes lower "weekly calendar" = false.
Proof.
  intros H. apply orb_false_iff. split.
  - destruct (includes lower "content calendar") eqn:E; [| reflexivity].
    rewrite (includes_weaken lower "content " "calendar" E) in H. discriminate.
  - destruct (includes lower "weekly calendar") eqn:E; [| reflexivity].
    rewrite (includes_weaken lower "weekly " "calendar" E) in H. discriminate.
Qed.

Lemma invoke_offline env rq st :
  unconfigured (openai_key env) = true ->
  exists category response,
    JS.get (keywordIntent (message rq)) "category" = inr category
    /\ invoke env category (keywordIntent (message rq)) rq st = (inr response, st)
    /\ offline_answer rq response.
Proof.
  intros Hkey. unfold keywordIntent. cbv zeta.
  set (lower := toLowerCase (message rq)).
  assert (Htext : forall c q a text,
            JS.get (mkIntent c q a "both" "medium") "category" = inr (JStr c) ->
            invoke env (JStr c) (mkIntent c q a "both" "medium") rq st
            = (inr (JStr text), st) ->
            exists category response,
              JS.get (mkIntent c q a "both" "medium") "category" = inr category
              /\ invoke env category (mkIntent c q a "both" "medium") rq st
                 = (inr response, st)
              /\ offline_answer rq response).
  { intros c q a text H1 H2. exists (JStr c), (JStr text).
    split; [exact H1 | split; [exact H2 | left; eexists; reflexivity]]. }
  destruct (includes lower "email"); [eapply Htext; reflexivity |].
  destruct (includes lower "calendar") eqn:Ecal.
  { cbn [orb]. eapply Htext; reflexivity. }
  cbn [orb].
  destruct (includes lower "schedule"); [eapply Htext; reflexivity |].
  destruct (includes lower "call" || includes lower "phone");
    [eapply Htext; reflexivity |].
  destruct (includes lower "research" || includes lower "analyze");
    [eapply Htext; reflexivity |].
  destruct (includes lower "social" || includes lower "content");
    [eapply Htext; reflexivity |].
  destruct (includes lower "client" || includes lower "project");
    [eapply Htext; reflexivity |].
  destruct (includes lower "prompt" || includes lower "generate").
  { exists (JStr "prompts"). unfold invoke. cbn [String.eqb Ascii.eqb Bool.eqb orb].
    unfold handlePromptRequest, try_catch. fold lower.
    destruct (includes lower "image prompt" || includes lower "high-end image"
              || includes lower "generate").
    - eexists. split; [reflexivity | split; [reflexivity | right; reflexivity]].
    - rewrite (no_calendar_branch lower Ecal).
      eexists. split; [reflexivity | split; [reflexivity | left; eexists; reflexivity]]. }
  destruct (includes lower "productive" || includes lower "goal");
    [eapply Htext; reflexivity |].
  eapply Htext; [reflexivity |].
  unfold invoke. cbn [String.eqb Ascii.eqb Bool.eqb orb].
  unfold handleGeneralRequest. rewrite Hkey. reflexivity.
Qed.

Lemma handleChatMessage_offline env rq st :
  unconfigured (openai_key env) = true ->
  exists category response text prompts,
    handleChatMessage env rq st
    = (ChatOk text prompts JUndefined JUndefined category (reply_time env),
       logged env rq response (keywordIntent (message rq)) (JStr "both") st)
    /\ JS.get (keywordIntent (message rq)) "category" = inr category
    /\ response_text response = inr text.
Proof.
  intros Hkey.
  destruct (invoke_offline env rq st Hkey) as (category & response & Hcat & Hinv & Hans).
  unfold handleChatMessage, chat_steps, bind.
  rewrite (analyzeIntent_keyword_branch env _ _ st Hkey). cbv beta iota.
  rewrite Hcat. cbn [lift ret]. rewrite Hinv. cbv beta iota.
  unfold logConversation, bind.
  destruct (keywordIntent_shape (message rq)) as (c & q & a & Hshape & _).
  assert (Hbus : JS.get (keywordIntent (message rq)) "business" = inr (JStr "both"))
    by (rewrite Hshape; reflexivity).
  rewrite Hbus. cbn [lift ret].
  destruct Hans as [(text & ->) | ->].
  - exists category, (JStr text), (JStr text), JUndefined.
    cbn [response_text JS.typeof_object lift ret].
    rewrite !optional_field_of_text. cbn [lift ret].
    split; [reflexivity | split; reflexivity].
  - eexists category, _, _, _. split; [reflexivity | split; reflexivity].
Qed.




(** X13. With no credential configured the chat never answers with a
    content calendar or a caption: a message that names a content
    calendar or a weekly calendar holds the keyword calendar and is routed
    to the calendar assistant, so the calendar branch of
    [handlePromptRequest] is out of reach of the keyword classifier. *)
Theorem offline_dispatch_never_calendar env rq st :
  unconfigured (openai_key env) = true ->
  (exists text prompts category,
     fst (handleChatMessage env rq st)
     = ChatOk text prompts JUndefined JUndefined category (reply_time env))
  /\ (asks_for_calendar (message rq) = true ->
      exists text,
        fst (handleChatMessage env rq st)
        = ChatOk text JUndefined JUndefined JUndefined (JStr "email")
            (reply_time env)
        \/ fst (handleChatMessage env rq st)
           = ChatOk text JUndefined JUndefined JUndefined (JStr "calendar")
               (reply_time env)).
Proof.
  intros Hkey. split.
  - destruct (handleChatMessage_offline env rq st Hkey)
      as (category & response & text & prompts & -> & _ & _).
    exists text, prompts, category. reflexivity.
  - intros Hcal. unfold asks_for_calendar in Hcal.
    assert (Hc : includes (toLowerCase (message rq)) "calendar" = true).
    { destruct (includes (toLowerCase (message rq)) "calendar") eqn:E;
        [reflexivity |].
      rewrite (no_calendar_branch _ E) in Hcal. discriminate. }
    unfold handleChatMessage, chat_steps, bind.
    rewrite (analyzeIntent_keyword_branch env _ _ st Hkey). cbv beta iota.
    unfold keywordIntent. cbv zeta. rewrite Hc. cbn [orb].
    destruct (includes (toLowerCase (message rq)) "email");
      eexists; [left | right]; reflexivity.
Qed.

Lemma offline_dispatch_never_calendar_witness :
  (exists text prompts category,
     fst (handleChatMessage (offline None)
            (mkChat "create a content calendar" JUndefined (Some "Acme"))
            empty_store)
     = ChatOk text prompts JUndefined JUndefined category
         (reply_time (offline None)))
  /\ (asks_for_calendar
        (message (mkChat "create a content calendar" JUndefined (Some "Acme")))
      = true ->
      exists text,
        fst (handleChatMessage (offline None)
               (mkChat "create a content calendar" JUndefined (Some "Acme"))
               empty_store)
        = ChatOk text JUndefined JUndefined JUndefined (JStr "email")
            (reply_time (offline None))
        \/ fst (handleChatMessage (offline None)
                  (mkChat "create a content calendar" JUndefined (Some "Acme"))
                  empty_store)
           = ChatOk text JUndefined JUndefined JUndefined (JStr "calendar")
               (reply_time (offline None))).
Proof.
  apply (offline_dispatch_never_calendar (offline None)
           (mkChat "create a content calendar" JUndefined (Some "Acme"))
           empty_store).
  reflexivity.
Defined.

(** ** The log across dispatches *)

Lemma push_and_trim_length log r :
  length (push_and_trim log r) = Nat.min (S (length log)) capacity.
Proof.
  rewrite push_and_trim_window. unfold slice_last.
  rewrite length_skipn, length_app. simpl length. lia.
Qed.

Lemma dispatch_log_step env rq st :
  conversations (snd (handleChatMessage env rq st)) = conversations st
  \/ exists r,
       conversations (snd (handleChatMessage env rq st))
       = push_and_trim (conversations st) r.
Proof.
  pose proof (handleChatMessage_cases env rq st) as D.
  destruct (handleChatMessage env rq st) as [sent st']. simpl in *.
  destruct D as
    [ intent st1 new1 _ [Hc1 _] _ _
    | intent st1 new1 category st2 new2 business _ [Hc1 _] _ _ _ _ [Hc2 _] _
    | intent st1 new1 category response st2 new2 business text p c cap
        _ [Hc1 _] _ _ _ _ [Hc2 _] _ _ _ _ _ ].
  - left. exact Hc1.
  - right. eexists. simpl. rewrite Hc2, Hc1. reflexivity.
  - right. eexists. simpl. rewrite Hc2, Hc1. reflexivity.
Qed.

(** X14. The bound of the log holds along every run of the chat route:
    whatever the messages, the environments and the failures on the way,
    a log of at most 1000 records still has at most 1000 records after
    the run, and it has grown by at most one record per message. *)
Theorem serve_keeps_log_bounded run st :
  length (conversations st) <= capacity ->
  length (conversations (serve run st)) <= capacity
  /\ length (conversations (serve run st))
     <= length (conversations st) + length run.
Proof.
  revert st. induction run as [|[env rq] rest IH]; intros st Hlen; simpl.
  - split; [exact Hlen | lia].
  - assert (Hstep : length (conversations (snd (handleChatMessage env rq st)))
                    <= capacity
                    /\ length (conversations (snd (handleChatMessage env rq st)))
                       <= S (length (conversations st))).
    { destruct (dispatch_log_step env rq st) as [-> | (r & ->)].
      - split; [exact Hlen | lia].
      - rewrite push_and_trim_length. split; lia. }
    destruct Hstep as [Hcap Hgrow].
    destruct (IH _ Hcap) as [H1 H2]. split; [exact H1 | lia].
Qed.

Lemma serve_keeps_log_bounded_witness :
  length (conversations
            (serve [(offline None, mkChat "hello" JUndefined None);
                    (null_completion_env, mkChat "hello" JUndefined None)]
               full_store)) <= capacity
  /\ length (conversations
               (serve [(offline None, mkChat "hello" JUndefined None);
                       (null_completion_env, mkChat "hello" JUndefined None)]
                  full_store))
     <= length (conversations full_store)
        + length [(offline None, mkChat "hello" JUndefined None);
                  (null_completion_env, mkChat "hello" JUndefined None)].
Proof.
  apply (serve_keeps_log_bounded
           [(offline None, mkChat "hello" JUndefined None);
            (null_completion_env, mkChat "hello" JUndefined None)] full_store).
  unfold full_store. cbn [conversations]. rewrite repeat_length. apply le_n.
Defined.

(** X15. A chat answer with success true always comes with its record:
    the log is the old log with one record pushed and trimmed, and that
    record holds the message, the identifier drawn for it, the response
    the envelope's text was taken from and the Intent whose category the
    envelope reports. *)
Theorem answered_dispatch_is_logged env rq st text prompts calendar caption
    category timestamp :
  fst (handleChatMessage env rq st)
  = ChatOk text prompts calendar caption category timestamp ->
  exists r,
    conversations (snd (handleChatMessage env rq st))
    = push_and_trim (conversations st) r
    /\ rec_message r = message rq
    /\ rec_id r = uuid env
    /\ response_text (rec_response r) = inr text
    /\ JS.get (rec_intent r) "category" = inr category
    /\ timestamp = reply_time env.
Proof.
  intros Hok.
  pose proof (handleChatMessage_cases env rq st) as D.
  destruct (handleChatMessage env rq st) as [sent st']. simpl in *. subst sent.
  inversion D as
    [ | | intent st1 new1 cat response st2 new2 business text' p c cap
          _ [Hc1 _] _ Hcat _ _ [Hc2 _] _ Ht _ _ _ ]; subst.
  eexists. split; [simpl; rewrite Hc2, Hc1; reflexivity |].
  repeat split; assumption.
Qed.

Lemma answered_dispatch_is_logged_witness :
  exists r,
    conversations (snd (handleChatMessage (offline None)
                          (mkChat "I need to schedule a call" JUndefined None)
                          empty_store))
    = push_and_trim (conversations empty_store) r
    /\ rec_message r = message (mkChat "I need to schedule a call" JUndefined None)
    /\ rec_id r = uuid (offline None)
    /\ response_text (rec_response r)
       = inr (JStr "I can help you schedule appointments, make reservations, and manage your calendar across both businesses. What would you like me to schedule?")
    /\ JS.get (rec_intent r) "category" = inr (JStr "calendar")
    /\ 0%Z = reply_time (offline None).
Proof.
  apply (answered_dispatch_is_logged (offline None)
           (mkChat "I need to schedule a call" JUndefined None) empty_store
           (JStr "I can help you schedule appointments, make reservations, and manage your calendar across both businesses. What would you like me to schedule?")
           JUndefined JUndefined JUndefined (JStr "calendar") 0%Z).
  reflexivity.
Defined.


(** ** The requests of a dispatch *)

Lemma handleGeneralRequest_requests env message context st :
  requests (snd (handleGeneralRequest env message context st))
  = if unconfigured (openai_key env) then requests st
    else (requests st ++ [completion_request])%list.
Proof.
  unfold handleGeneralRequest, try_catch, bind, axios_post.
  destruct (unconfigured (openai_key env)); [reflexivity |].
  destruct (completion env) as [|r]; [reflexivity |].
  destruct (validateStatus (status r)); [| reflexivity].
  destruct (content r); reflexivity.
Qed.

Lemma invoke_requests env category intent rq st :
  requests (snd (invoke env category intent rq st)) = requests st
  \/ requests (snd (invoke env category intent rq st))
     = (requests st ++ [completion_request])%list.
Proof.
  assert (Hgeneral :
            requests (snd (handleGeneralRequest env (message rq) (context rq) st))
            = requests st
            \/ requests (snd (handleGeneralRequest env (message rq) (context rq) st))
               = (requests st ++ [completion_request])%list).
  { rewrite handleGeneralRequest_requests.
    destruct (unconfigured (openai_key env)); [left | right]; reflexivity. }
  unfold invoke.
  destruct category; try exact Hgeneral.
  repeat match goal with
         | |- context [if ?b then _ else _] => destruct b; [left; reflexivity |]
         end.
  destruct (_ || _); [| exact Hgeneral].
  destruct (handlePromptRequest_returns (message rq) (context rq)
              (businessContext rq) st) as (response & -> & _).
  left. reflexivity.
Qed.

(** X16. With a credential configured a dispatch sends the classification
    request first and at most one more request, the completion request of
    the general capability; it never sends anything else, whether it
    answers or fails. *)
Theorem dispatch_sends_at_most_two env rq st :
  unconfigured (openai_key env) = false ->
  requests (snd (handleChatMessage env rq st))
  = (requests st ++ [classification_request])%list
  \/ requests (snd (handleChatMessage env rq st))
     = (requests st ++ [classification_request; completion_request])%list.
Proof.
  intros Hkey.
  pose proof (analyzeIntent_requests env (message rq) (context rq) st) as Hreq.
  rewrite Hkey in Hreq.
  pose proof (handleChatMessage_cases env rq st) as D.
  destruct (handleChatMessage env rq st) as [sent st']. simpl in *.
  destruct D as
    [ intent st1 new1 Hai _ _ _
    | intent st1 new1 category st2 new2 business Hai _ _ _ _ Hinv _ _
    | intent st1 new1 category response st2 new2 business text p c cap
        Hai _ _ _ _ Hinv _ _ _ _ _ _ ];
    rewrite Hai in Hreq; simpl in Hreq.
  - left. exact Hreq.
  - destruct (invoke_requests env category intent rq st1) as [H | H];
      rewrite Hinv in H; simpl in H |- *; rewrite H, Hreq;
      [left; reflexivity | right; rewrite <- app_assoc; reflexivity].
  - destruct (invoke_requests env category intent rq st1) as [H | H];
      rewrite Hinv in H; simpl in H |- *; rewrite H, Hreq;
      [left; reflexivity | right; rewrite <- app_assoc; reflexivity].
Qed.

Lemma dispatch_sends_at_most_two_witness :
  requests (snd (handleChatMessage null_completion_env
                   (mkChat "hello" JUndefined None) empty_store))
  = (requests empty_store ++ [classification_request])%list
  \/ requests (snd (handleChatMessage null_completion_env
                      (mkChat "hello" JUndefined None) empty_store))
     = (requests empty_store ++ [classification_request; completion_request])%list.
Proof.
  apply (dispatch_sends_at_most_two null_completion_env
           (mkChat "hello" JUndefined None) empty_store).
  reflexivity.
Defined.


(** ** The content calendar route *)

Lemma iterations_spec w (week : nat) :
  week < ContentCalendar.iterations w <-> (inject_Z (Z.of_nat week) < w)%Q.
Proof.
  unfold ContentCalendar.iterations.
  assert (H : (Z.of_nat week < Qceiling w)%Z <-> (inject_Z (Z.of_nat week) < w)%Q).
  { split; intros H.
    - apply Qle_lt_trans with (y := inject_Z (Qceiling w - 1)).
      + rewrite <- Zle_Qle. lia.
      + apply Qceiling_lt.
    - rewrite Zlt_Qlt. eapply Qlt_le_trans; [exact H | apply Qle_ceiling]. }
  rewrite <- H. lia.
Qed.







(** X19. The calendar of the chat and the calendar of the route agree on
    the working week: whenever the route's loop runs at least once, the
    five entries of [handlePromptRequest]'s calendar name, in order, the
    same day, theme and posting time as the first five entries of the
    route's calendar. *)
Theorem chat_calendar_matches_route businessContext business audience weeks :
  (0 < ContentCalendar.weeks_or_default weeks)%Q ->
  Forall2 same_slot (contentThemes businessContext)
    (firstn 5 (ContentCalendar.calendar business audience (ContentCalendar.weeks_or_default weeks))).
Proof.
  intros Hpos.
  assert (H0 : 0 < ContentCalendar.iterations (ContentCalendar.weeks_or_default weeks))
    by (apply iterations_spec; exact Hpos).
  unfold ContentCalendar.calendar.
  destruct (ContentCalendar.iterations (ContentCalendar.weeks_or_default weeks)) as [|n]; [lia |].
  cbn [seq flat_map]. unfold ContentCalendar.contentThemes at 1.
  cbn [map app firstn]. unfold contentThemes.
  repeat constructor.
Qed.


Lemma chat_calendar_matches_route_witness :
  Forall2 same_slot (contentThemes (Some "Acme"))
    (firstn 5 (ContentCalendar.calendar "Acme" "founders" (ContentCalendar.weeks_or_default None))).
Proof.
  apply (chat_calendar_matches_route (Some "Acme") "Acme" "founders" None).
  reflexivity.
Defined.

(** ** The prompt route *)









(** ** The Gmail route *)

Lemma fetch_detail_accounts w i message ds tr :
  let r := Gmail.fetch_detail w i message ds tr in
  (exists entry, fst r = (ds ++ [entry])%list /\ Gmail.errors (snd r) = Gmail.errors tr)
  \/ (fst r = ds /\ Gmail.errors (snd r) = (Gmail.errors tr ++ [Gmail.inner_label])%list).
Proof.
  unfold Gmail.fetch_detail.
  destruct (JS.get message "id") as [e|id]; [right; split; reflexivity |].
  destruct (Gmail.axios_get (Gmail.details w i)) as [c|email]; [right; split; reflexivity |].
  destruct (Gmail.email_detail email) as [e|entry]; [right; split; reflexivity |].
  left. exists entry. split; reflexivity.
Qed.

Lemma fetch_detail_calls w i message ds tr :
  Gmail.calls (snd (Gmail.fetch_detail w i message ds tr)) = Gmail.calls tr
  \/ exists id,
       Gmail.calls (snd (Gmail.fetch_detail w i message ds tr))
       = (Gmail.calls tr ++ [Gmail.GetMessage id])%list.
Proof.
  unfold Gmail.fetch_detail.
  destruct (JS.get message "id") as [e|id]; [left; reflexivity |].
  right. exists id.
  destruct (Gmail.axios_get (Gmail.details w i)) as [c|email]; [reflexivity |].
  destruct (Gmail.email_detail email); reflexivity.
Qed.

(** Every round of the loop gives one entry or one printed error, and at
    most one request. *)
Lemma fetch_details_accounts w messages : forall i ds tr,
  let r := Gmail.fetch_details w i messages ds tr in
  exists entries printed sent,
    fst r = (ds ++ entries)%list
    /\ Gmail.errors (snd r) = (Gmail.errors tr ++ repeat Gmail.inner_label printed)%list
    /\ Gmail.calls (snd r) = (Gmail.calls tr ++ sent)%list
    /\ length entries + printed = length messages
    /\ length sent <= length messages
    /\ Forall (fun c => c <> Gmail.ListUnread) sent.
Proof.
  induction messages as [|message rest IH]; intros i ds tr r; subst r.
  - exists [], 0, []. simpl. rewrite !app_nil_r. repeat split; constructor.
  - cbn [Gmail.fetch_details].
    destruct (Gmail.fetch_detail w i message ds tr) as [ds1 tr1] eqn:E.
    pose proof (fetch_detail_accounts w i message ds tr) as Ha.
    pose proof (fetch_detail_calls w i message ds tr) as Hc.
    rewrite E in Ha, Hc. cbn [fst snd] in Ha, Hc.
    destruct (IH (S i) ds1 tr1) as (entries & printed & sent & H1 & H2 & H3 & H4 & H5 & H6).
    assert (Hsent : exists sent1, Gmail.calls tr1 = (Gmail.calls tr ++ sent1)%list
                                  /\ length sent1 <= 1
                                  /\ Forall (fun c => c <> Gmail.ListUnread) sent1).
    { destruct Hc as [-> | (id & ->)].
      - exists []. rewrite app_nil_r. repeat split; [simpl; lia | constructor].
      - exists [Gmail.GetMessage id]. repeat split; [simpl; lia |].
        constructor; [discriminate | constructor]. }
    destruct Hsent as (sent1 & Hs1 & Hs2 & Hs3).
    destruct Ha as [(entry & -> & He) | (-> & He)].
    + exists (entry :: entries), printed, (sent1 ++ sent)%list.
      rewrite H1, H2, H3, He, Hs1, <- !app_assoc.
      repeat split; [simpl; lia | rewrite length_app; simpl; lia
                     | apply Forall_app; split; assumption].
    + exists entries, (S printed), (sent1 ++ sent)%list.
      rewrite H1, H2, H3, He, Hs1, <- !app_assoc.
      repeat split; [simpl; lia | rewrite length_app; simpl; lia
                     | apply Forall_app; split; assumption].
Qed.

(** X21. When the listing succeeds with an array of messages,
    [getEmails] answers with success true and counts everything: [total]
    is the number of listed messages, and each of the first five of them
    gives exactly one returned email or one printed error, so at most
    five emails come back, never more than [total], after the listing
    request and at most one detail request per message. A detail request
    that fails is skipped and does not fail the route. *)
Theorem getEmails_accounts cfg w tr status data items :
  present (cfg_gmail_accessToken cfg) = true ->
  Gmail.listing w = Gmail.Responds status data -> validateStatus status = true ->
  JS.get data "messages" = inr (JArr items) ->
  exists emails printed sent,
    fst (Gmail.getEmails cfg w tr)
    = Json 200 (JObj [ ("success", JBool true);
                       ("emails", JArr emails);
                       ("total", JNum (inject_Z (Z.of_nat (length items)))) ])
    /\ length emails + printed = Nat.min 5 (length items)
    /\ Gmail.errors (snd (Gmail.getEmails cfg w tr))
       = (Gmail.errors tr ++ repeat Gmail.inner_label printed)%list
    /\ Gmail.calls (snd (Gmail.getEmails cfg w tr)) = (Gmail.calls tr ++ Gmail.ListUnread :: sent)%list
    /\ length sent <= Nat.min 5 (length items)
    /\ Forall (fun c => c <> Gmail.ListUnread) sent.
Proof.
  intros Htoken Hlist Hstatus Hmessages.
  unfold Gmail.getEmails. rewrite Htoken. cbn [negb].
  unfold Gmail.axios_get. rewrite Hlist, Hstatus, Hmessages.
  cbn [JS.or_else JS.truthy Gmail.first_five Gmail.length_of].
  pose proof (fetch_details_accounts w (firstn 5 items) 0 [] (Gmail.call Gmail.ListUnread tr))
    as (entries & printed & sent & H1 & H2 & H3 & H4 & H5 & H6).
  destruct (Gmail.fetch_details w 0 (firstn 5 items) [] (Gmail.call Gmail.ListUnread tr))
    as [emails tr'].
  cbn [fst snd] in *. subst emails.
  rewrite length_firstn in H4, H5.
  exists entries, printed, sent.
  rewrite H2, H3. cbn [Gmail.call Gmail.calls Gmail.errors]. rewrite <- app_assoc.
  repeat split; assumption.
Qed.

Lemma getEmails_accounts_witness :
  exists emails printed sent,
    fst (Gmail.getEmails (gmail_config (Some "ya29.token")) flaky_gmail no_trace)
    = Json 200
        (JObj [ ("success", JBool true);
                ("emails", JArr emails);
                ("total",
                 JNum (inject_Z
                         (Z.of_nat
                            (length
                               (map (fun i => JObj [("id", JNum (inject_Z (Z.of_nat i)))])
                                  (seq 0 7)))))) ])
    /\ length emails + printed
       = Nat.min 5 (length (map (fun i => JObj [("id", JNum (inject_Z (Z.of_nat i)))])
                              (seq 0 7)))
    /\ Gmail.errors (snd (Gmail.getEmails (gmail_config (Some "ya29.token")) flaky_gmail
                      no_trace))
       = (Gmail.errors no_trace ++ repeat Gmail.inner_label printed)%list
    /\ Gmail.calls (snd (Gmail.getEmails (gmail_config (Some "ya29.token")) flaky_gmail
                     no_trace))
       = (Gmail.calls no_trace ++ Gmail.ListUnread :: sent)%list
    /\ length sent
       <= Nat.min 5 (length (map (fun i => JObj [("id", JNum (inject_Z (Z.of_nat i)))])
                               (seq 0 7)))
    /\ Forall (fun c => c <> Gmail.ListUnread) sent.
Proof.
  apply (getEmails_accounts (gmail_config (Some "ya29.token")) flaky_gmail
           no_trace 200 (listed_messages 7)); reflexivity.
Defined.

(** X22. [getEmails] fails closed: without an access token it answers 401
    and sends nothing; with a token, whenever it does not answer with
    success it has sent the listing request and no detail request, it
    printed one error, and it answers 401 (authentication expired)
    exactly when the listing was answered with status 401, and 500
    otherwise. *)
Theorem getEmails_failures cfg w tr :
  (present (cfg_gmail_accessToken cfg) = false ->
   Gmail.getEmails cfg w tr = (Gmail.not_authenticated, tr))
  /\ (present (cfg_gmail_accessToken cfg) = true ->
      sent_success (fst (Gmail.getEmails cfg w tr)) = false ->
      Gmail.calls (snd (Gmail.getEmails cfg w tr)) = (Gmail.calls tr ++ [Gmail.ListUnread])%list
      /\ Gmail.errors (snd (Gmail.getEmails cfg w tr))
         = (Gmail.errors tr ++ ["Get emails error:"])%list
      /\ ((exists data, Gmail.listing w = Gmail.Responds 401 data)
          /\ fst (Gmail.getEmails cfg w tr) = Gmail.expired
          \/ (forall data, Gmail.listing w <> Gmail.Responds 401 data)
             /\ fst (Gmail.getEmails cfg w tr) = Gmail.failed_to_fetch)).
Proof.
  unfold Gmail.getEmails. split.
  - intros ->. reflexivity.
  - intros ->. cbn [negb].
    assert (Hthrown : forall e,
              Gmail.calls (snd (Gmail.on_error (Gmail.Thrown e) (Gmail.call Gmail.ListUnread tr)))
              = (Gmail.calls tr ++ [Gmail.ListUnread])%list
              /\ Gmail.errors (snd (Gmail.on_error (Gmail.Thrown e) (Gmail.call Gmail.ListUnread tr)))
                 = (Gmail.errors tr ++ ["Get emails error:"])%list
              /\ fst (Gmail.on_error (Gmail.Thrown e) (Gmail.call Gmail.ListUnread tr)) = Gmail.failed_to_fetch)
      by (intros e; repeat split).
    destruct (Gmail.listing w) as [|status data] eqn:Hlist; cbn [Gmail.axios_get].
    { intros _. split; [reflexivity | split; [reflexivity |]].
      right. split; [discriminate | reflexivity]. }
    destruct (validateStatus status) eqn:Hvalid.
    2: { intros _. cbn [Gmail.on_error].
         destruct (Z.eqb_spec status 401) as [-> | Hne].
         - split; [reflexivity | split; [reflexivity |]].
           left. split; [exists data; reflexivity | reflexivity].
         - split; [reflexivity | split; [reflexivity |]].
           right. split; [intros d [= H _]; contradiction | reflexivity]. }
    assert (Hnot401 : forall d, Gmail.Responds status data <> Gmail.Responds 401 d).
    { intros d [= -> _]. discriminate Hvalid. }
    destruct (JS.get data "messages") as [e|listed].
    { intros _. destruct (Hthrown e) as (H1 & H2 & H3).
      split; [exact H1 | split; [exact H2 | right; split; [exact Hnot401 | exact H3]]]. }
    destruct (Gmail.first_five (JS.or_else listed (JArr []))) as [e|five].
    { intros _. destruct (Hthrown e) as (H1 & H2 & H3).
      split; [exact H1 | split; [exact H2 | right; split; [exact Hnot401 | exact H3]]]. }
    destruct (Gmail.fetch_details w 0 five [] (Gmail.call Gmail.ListUnread tr)) as [emails tr'].
    cbn. discriminate.
Qed.

Lemma header_value_truthy name fallback headers v :
  fallback <> "" -> Gmail.header_value name fallback headers = inr v ->
  JS.truthy v = true.
Proof.
  intros Hfb. unfold Gmail.header_value.
  assert (Hf : JS.truthy (JStr fallback) = true).
  { simpl. destruct (String.eqb_spec fallback ""); [contradiction | reflexivity]. }
  destruct (Gmail.find_header name headers) as [e|h]; [discriminate |].
  assert (Hor : forall x, JS.truthy (JS.or_else x (JStr fallback)) = true).
  { intros x. unfold JS.or_else. destruct (JS.truthy x) eqn:E; [exact E | exact Hf]. }
  destruct h; try (intros [= <-]; exact Hf);
    cbn [JS.get]; intros [= <-]; apply Hor.
Qed.

(** X23. Every email [getEmails] returns has a subject, a sender and a
    date: when a header is missing, or present with an empty value, the
    entry carries No Subject, Unknown Sender or Unknown Date in its
    place, so the three fields of an entry are never empty, absent or
    null. *)
Theorem email_detail_fields_filled email entry :
  Gmail.email_detail email = inr entry ->
  exists subject from date,
    JS.get entry "subject" = inr subject /\ JS.truthy subject = true
    /\ JS.get entry "from" = inr from /\ JS.truthy from = true
    /\ JS.get entry "date" = inr date /\ JS.truthy date = true.
Proof.
  unfold Gmail.email_detail.
  destruct (JS.get email "payload") as [e|payload]; [discriminate |].
  destruct (JS.get payload "headers") as [e|headers]; [discriminate |].
  destruct headers as [| | | | |headers|]; try discriminate.
  destruct (JS.get email "id"); [discriminate |].
  destruct (JS.get email "threadId"); [discriminate |].
  destruct (Gmail.header_value "Subject" "No Subject" headers) as [|subject] eqn:Hs;
    [discriminate |].
  destruct (Gmail.header_value "From" "Unknown Sender" headers) as [|from] eqn:Hf;
    [discriminate |].
  destruct (Gmail.header_value "Date" "Unknown Date" headers) as [|date] eqn:Hd;
    [discriminate |].
  destruct (JS.get email "snippet"); [discriminate |].
  intros [= <-]. exists subject, from, date.
  repeat split; try reflexivity;
    eapply header_value_truthy; try eassumption; discriminate.
Qed.

Lemma email_detail_fields_filled_witness :
  exists subject from date,
    JS.get (JObj [ ("id", JStr "m"); ("threadId", JStr "t");
                   ("subject", JStr "No Subject"); ("from", JStr "Ada");
                   ("date", JStr "Unknown Date"); ("snippet", JNull) ])
      "subject" = inr subject /\ JS.truthy subject = true
    /\ JS.get (JObj [ ("id", JStr "m"); ("threadId", JStr "t");
                      ("subject", JStr "No Subject"); ("from", JStr "Ada");
                      ("date", JStr "Unknown Date"); ("snippet", JNull) ])
         "from" = inr from /\ JS.truthy from = true
    /\ JS.get (JObj [ ("id", JStr "m"); ("threadId", JStr "t");
                      ("subject", JStr "No Subject"); ("from", JStr "Ada");
                      ("date", JStr "Unknown Date"); ("snippet", JNull) ])
         "date" = inr date /\ JS.truthy date = true.
Proof.
  apply (email_detail_fields_filled
           (JObj [ ("id", JStr "m"); ("threadId", JStr "t");
                   ("payload",
                    JObj [ ("headers",
                            JArr [ JObj [("name", JStr "Subject"); ("value", JStr "")];
                                   JObj [("name", JStr "From"); ("value", JStr "Ada")] ]) ]);
                   ("snippet", JNull) ])).
  reflexivity.
Defined.


(** ** The other configuration routes *)

Lemma write_if_returns key field h :
  writable h = true ->
  fst (write_if key field h) = Returns
  /\ writable (snd (write_if key field h)) = true.
Proof.
  intros Hw. unfold write_if. destruct (present field).
  - rewrite updateEnvFile_outcome, Hw. cbn [fst snd].
    rewrite updateEnvFile_writable. split; [reflexivity | exact Hw].
  - split; [reflexivity | exact Hw].
Qed.

Lemma line_of_write_if key field h :
  writable h = true -> one_line key -> fits field ->
  line_of key (env_text (snd (write_if key field h)))
  = line_after key field (line_of key (env_text h)).
Proof.
  intros Hw Hk Hf. unfold write_if, line_after. destruct (present field).
  - apply line_of_after_update; assumption.
  - reflexivity.
Qed.

Lemma line_of_other_write_if key other field h :
  writable h = true -> plain_key key -> plain_key other -> key <> other ->
  fits field ->
  line_of other (env_text (snd (write_if key field h)))
  = line_of other (env_text h).
Proof.
  intros Hw Hk Ho Hne Hf. unfold write_if. destruct (present field).
  - apply line_of_other_after_update; assumption.
  - reflexivity.
Qed.

(** X24. [updatePerplexityConfig] does not check its key, unlike the
    OpenAI route: for any key that is a string or absent, an empty one
    included, it answers with success when the file can be written and
    stores the key in the configuration, and [getConfigStatus] then
    reports perplexity as configured exactly when the key is non-empty and
    not the placeholder. When the key holds no newline, its text can be
    read back from the [.env] file as the line of [PERPLEXITY_API_KEY];
    an absent key is written as [PERPLEXITY_API_KEY=undefined]. *)
Theorem updatePerplexityConfig_unchecked api_key s :
  writable (host s) = true ->
  let s' := snd (updatePerplexityConfig api_key s) in
  sent_success (fst (updatePerplexityConfig api_key s)) = true
  /\ cfg_perplexity_key (config s') = api_key
  /\ path (sent_body (getConfigStatus (config s')))
       ["status"; "perplexity"; "configured"]
     = inr (JBool (real_key api_key))
  /\ (fits api_key ->
      line_of "PERPLEXITY_API_KEY" (env_text (host s'))
      = Some (entry "PERPLEXITY_API_KEY" (text_of api_key)))
  /\ (api_key = None ->
      line_of "PERPLEXITY_API_KEY" (env_text (host s'))
      = Some "PERPLEXITY_API_KEY=undefined").
Proof.
  intros Hw s'. subst s'. unfold updatePerplexityConfig.
  rewrite updateEnvFile_outcome, Hw. cbn [fst snd config host].
  assert (Hline : fits api_key ->
                  line_of "PERPLEXITY_API_KEY"
                    (env_text (snd (updateEnvFile "PERPLEXITY_API_KEY"
                                      (text_of api_key) (host s))))
                  = Some (entry "PERPLEXITY_API_KEY" (text_of api_key)))
    by (intros Hfit; apply line_of_after_update;
        [exact Hw | reflexivity | exact Hfit]).
  split; [reflexivity | split; [reflexivity | split; [reflexivity | split]]].
  - exact Hline.
  - intros ->. apply Hline. reflexivity.
Qed.

Lemma updatePerplexityConfig_unchecked_witness :
  let s := mkServer blank_config sample_host in
  let s' := snd (updatePerplexityConfig None s) in
  sent_success (fst (updatePerplexityConfig None s)) = true
  /\ cfg_perplexity_key (config s') = None
  /\ path (sent_body (getConfigStatus (config s')))
       ["status"; "perplexity"; "configured"]
     = inr (JBool (real_key None))
  /\ (fits None ->
      line_of "PERPLEXITY_API_KEY" (env_text (host s'))
      = Some (entry "PERPLEXITY_API_KEY" (text_of None)))
  /\ (@None string = None ->
      line_of "PERPLEXITY_API_KEY" (env_text (host s'))
      = Some "PERPLEXITY_API_KEY=undefined").
Proof.
  apply (updatePerplexityConfig_unchecked None (mkServer blank_config sample_host)).
  reflexivity.
Defined.

(** X25. For fields that hold no newline, [updateSocialConfig] writes only
    the fields it is given: after a successful call each of
    [TWITTER_API_KEY], [LINKEDIN_CLIENT_ID] and [FACEBOOK_ACCESS_TOKEN]
    holds its field when the field is a non-empty text and keeps its
    former line (or stays absent) otherwise; the three writes do not
    disturb each other nor any other variable whose name holds no [=] and
    no newline, and the configuration is untouched. *)
Theorem updateSocialConfig_only_given twitter_key linkedin_id facebook_token s other :
  writable (host s) = true ->
  fits twitter_key -> fits linkedin_id -> fits facebook_token ->
  plain_key other -> other <> "TWITTER_API_KEY" ->
  other <> "LINKEDIN_CLIENT_ID" -> other <> "FACEBOOK_ACCESS_TOKEN" ->
  let s' := snd (updateSocialConfig twitter_key linkedin_id facebook_token s) in
  sent_success (fst (updateSocialConfig twitter_key linkedin_id facebook_token s))
  = true
  /\ line_of "TWITTER_API_KEY" (env_text (host s'))
     = line_after "TWITTER_API_KEY" twitter_key
         (line_of "TWITTER_API_KEY" (env_text (host s)))
  /\ line_of "LINKEDIN_CLIENT_ID" (env_text (host s'))
     = line_after "LINKEDIN_CLIENT_ID" linkedin_id
         (line_of "LINKEDIN_CLIENT_ID" (env_text (host s)))
  /\ line_of "FACEBOOK_ACCESS_TOKEN" (env_text (host s'))
     = line_after "FACEBOOK_ACCESS_TOKEN" facebook_token
         (line_of "FACEBOOK_ACCESS_TOKEN" (env_text (host s)))
  /\ line_of other (env_text (host s')) = line_of other (env_text (host s))
  /\ config s' = config s.
Proof.
  intros Hw Ht Hl Hf Ho Ho1 Ho2 Ho3 s'. subst s'. unfold updateSocialConfig.
  set (h0 := host s).
  destruct (write_if_returns "TWITTER_API_KEY" twitter_key h0 Hw) as [R1 W1].
  destruct (write_if "TWITTER_API_KEY" twitter_key h0) as [c1 h1] eqn:E1.
  cbn [fst snd] in R1, W1. subst c1.
  destruct (write_if_returns "LINKEDIN_CLIENT_ID" linkedin_id h1 W1) as [R2 W2].
  destruct (write_if "LINKEDIN_CLIENT_ID" linkedin_id h1) as [c2 h2] eqn:E2.
  cbn [fst snd] in R2, W2. subst c2.
  destruct (write_if_returns "FACEBOOK_ACCESS_TOKEN" facebook_token h2 W2) as [R3 W3].
  destruct (write_if "FACEBOOK_ACCESS_TOKEN" facebook_token h2) as [c3 h3] eqn:E3.
  cbn [fst snd] in R3, W3. subst c3.
  cbn [fst snd config host].
  assert (H1 : h1 = snd (write_if "TWITTER_API_KEY" twitter_key h0))
    by (rewrite E1; reflexivity).
  assert (H2 : h2 = snd (write_if "LINKEDIN_CLIENT_ID" linkedin_id h1))
    by (rewrite E2; reflexivity).
  assert (H3 : h3 = snd (write_if "FACEBOOK_ACCESS_TOKEN" facebook_token h2))
    by (rewrite E3; reflexivity).
  assert (P1 : plain_key "TWITTER_API_KEY") by (split; reflexivity).
  assert (P2 : plain_key "LINKEDIN_CLIENT_ID") by (split; reflexivity).
  assert (P3 : plain_key "FACEBOOK_ACCESS_TOKEN") by (split; reflexivity).
  split; [reflexivity |]. split; [| split; [| split; [| split; [| reflexivity]]]].
  - rewrite H3, line_of_other_write_if by (assumption || discriminate).
    rewrite H2, line_of_other_write_if by (assumption || discriminate).
    rewrite H1. apply line_of_write_if; [exact Hw | reflexivity | exact Ht].
  - rewrite H3, line_of_other_write_if by (assumption || discriminate).
    rewrite H2, line_of_write_if by (assumption || reflexivity).
    rewrite H1, line_of_other_write_if by (assumption || discriminate).
    reflexivity.
  - rewrite H3, line_of_write_if by (assumption || reflexivity).
    rewrite H2, line_of_other_write_if by (assumption || discriminate).
    rewrite H1, line_of_other_write_if by (assumption || discriminate).
    reflexivity.
  - rewrite H3, line_of_other_write_if by (assumption || congruence).
    rewrite H2, line_of_other_write_if by (assumption || congruence).
    rewrite H1, line_of_other_write_if by (assumption || congruence).
    reflexivity.
Qed.

Lemma updateSocialConfig_only_given_witness :
  let s := mkServer blank_config sample_host in
  let s' := snd (updateSocialConfig None (Some "li-client-77") (Some "") s) in
  sent_success (fst (updateSocialConfig None (Some "li-client-77") (Some "") s))
  = true
  /\ line_of "TWITTER_API_KEY" (env_text (host s'))
     = line_after "TWITTER_API_KEY" None
         (line_of "TWITTER_API_KEY" (env_text (host s)))
  /\ line_of "LINKEDIN_CLIENT_ID" (env_text (host s'))
     = line_after "LINKEDIN_CLIENT_ID" (Some "li-client-77")
         (line_of "LINKEDIN_CLIENT_ID" (env_text (host s)))
  /\ line_of "FACEBOOK_ACCESS_TOKEN" (env_text (host s'))
     = line_after "FACEBOOK_ACCESS_TOKEN" (Some "")
         (line_of "FACEBOOK_ACCESS_TOKEN" (env_text (host s)))
  /\ line_of "PORT" (env_text (host s')) = line_of "PORT" (env_text (host s))
  /\ config s' = config s.
Proof.
  apply (updateSocialConfig_only_given None (Some "li-client-77") (Some "")
           (mkServer blank_config sample_host) "PORT");
    try reflexivity; try discriminate.
  split; reflexivity.
Defined.

(** ** More of the chat pipeline *)




(** X27. With a credential configured, a classification reply whose
    content is JSON text is returned as [JSON.parse] gives it, without
    any check: one request is sent and nothing is printed. When that
    value is [null], reading [intent.category] raises and the dispatch
    answers the failure envelope, having logged nothing. *)
Theorem analyzeIntent_returns_parsed env rq st r v :
  unconfigured (openai_key env) = false ->
  classification env = Responded r -> parsed_reply r v ->
  analyzeIntent env (message rq) (context rq) st
  = (inr v,
     mkStore (conversations st) (requests st ++ [classification_request])
       (console st))
  /\ (v = JNull ->
      fst (handleChatMessage env rq st) = failure_envelope
      /\ conversations (snd (handleChatMessage env rq st)) = conversations st
      /\ requests (snd (handleChatMessage env rq st))
         = (requests st ++ [classification_request])%list).
Proof.
  intros Hkey Hreply (Hstatus & (c & Hc) & Hjson).
  assert (Hai : analyzeIntent env (message rq) (context rq) st
                = (inr v,
                   mkStore (conversations st)
                     (requests st ++ [classification_request]) (console st))).
  { unfold analyzeIntent, try_catch, bind, axios_post, JSON_parse_content, bind.
    rewrite Hkey, Hreply, Hstatus, Hc, Hjson. reflexivity. }
  split; [exact Hai |].
  intros ->. unfold handleChatMessage, chat_steps, bind. rewrite Hai.
  repeat split.
Qed.

Lemma analyzeIntent_returns_parsed_witness :
  analyzeIntent null_intent_env (message (mkChat "hello" JUndefined None))
    (context (mkChat "hello" JUndefined None)) empty_store
  = (inr JNull,
     mkStore (conversations empty_store)
       (requests empty_store ++ [classification_request]) (console empty_store))
  /\ (JNull = JNull ->
      fst (handleChatMessage null_intent_env (mkChat "hello" JUndefined None)
             empty_store) = failure_envelope
      /\ conversations (snd (handleChatMessage null_intent_env
                               (mkChat "hello" JUndefined None) empty_store))
         = conversations empty_store
      /\ requests (snd (handleChatMessage null_intent_env
                          (mkChat "hello" JUndefined None) empty_store))
         = (requests empty_store ++ [classification_request])%list).
Proof.
  apply (analyzeIntent_returns_parsed null_intent_env
           (mkChat "hello" JUndefined None) empty_store
           (mkReply 200 (completion_body (JStr "null")) (Some JNull)) JNull).
  - reflexivity.
  - reflexivity.
  - split; [reflexivity | split; [eexists; reflexivity | reflexivity]].
Defined.
